(** * rinha-2024-q1: the ledger service of [main.go]

    A shallow embedding of the two HTTP handlers of [main.go]
    ([handleTransactions], [handleStatement]) and of the start-up code of
    [main], together with the library functions they call
    ([utf8.RuneCountInString], [strconv.Atoi]) and the PostgreSQL side they
    talk to (the [customers] and [transactions] tables, the stored
    functions [credit] and [debit]).

    Go's [int] is kept as [Z]; a Go [string] is a [string] whose
    characters are its bytes.  The Prometheus counters of the handlers are
    left out: no reply and no state depends on them. *)

From Stdlib Require Import ZArith List String Ascii Lia Bool Permutation.
From Stdlib Require Import Sorting.Sorted.
From stdpp Require Import gmap strings list.

Local Open Scope string_scope.
Local Open Scope Z_scope.

(** ** Go strings as byte sequences *)

Definition byteOfAscii (a : ascii) : Z := Z.of_N (N_of_ascii a).
Definition asciiOfByte (b : Z) : ascii := ascii_of_N (Z.to_N b).

(** [[]byte(s)] *)
Definition bytes (s : string) : list Z := map byteOfAscii (list_ascii_of_string s).

(** [string(bs)] for bytes in [0, 255] *)
Definition ofBytes (bs : list Z) : string := string_of_list_ascii (map asciiOfByte bs).

(** ** unicode/utf8 *)

Module utf8.

Definition RuneSelf : Z := 0x80.
Definition MaxRune : Z := 0x10FFFF.
Definition RuneError : Z := 0xFFFD.
Definition surrogateMin : Z := 0xD800.
Definition surrogateMax : Z := 0xDFFF.

Definition tx : Z := 0x80.
Definition t2 : Z := 0xC0.
Definition t3 : Z := 0xE0.
Definition t4 : Z := 0xF0.
Definition maskx : Z := 0x3F.

Definition rune1Max : Z := 0x7F.
Definition rune2Max : Z := 0x7FF.
Definition rune3Max : Z := 0xFFFF.

Definition locb : Z := 0x80.
Definition hicb : Z := 0xBF.

(** first nibble: index into [acceptRanges] (or F), second nibble: the
    length of the rune (or the status of the one-byte special cases) *)
Definition xx : Z := 0xF1.
Definition as_ : Z := 0xF0.
Definition s1 : Z := 0x02.
Definition s2 : Z := 0x13.
Definition s3 : Z := 0x03.
Definition s4 : Z := 0x23.
Definition s5 : Z := 0x34.
Definition s6 : Z := 0x04.
Definition s7 : Z := 0x44.

(** the table [first[256]], row by row *)
Definition first (c : Z) : Z :=
  if c <? 0x80 then as_            (* 0x00-0x7F *)
  else if c <? 0xC0 then xx        (* 0x80-0xBF *)
  else if c <? 0xC2 then xx        (* 0xC0-0xC1 *)
  else if c <? 0xE0 then s1        (* 0xC2-0xDF *)
  else if c =? 0xE0 then s2
  else if c <? 0xED then s3        (* 0xE1-0xEC *)
  else if c =? 0xED then s4
  else if c <? 0xF0 then s3        (* 0xEE-0xEF *)
  else if c =? 0xF0 then s5
  else if c <? 0xF4 then s6        (* 0xF1-0xF3 *)
  else if c =? 0xF4 then s7
  else xx.                         (* 0xF5-0xFF *)

(** the table [acceptRanges[16]]: (lo, hi) of the second byte *)
Definition acceptRanges (i : Z) : Z * Z :=
  match i with
  | 0 => (locb, hicb)
  | 1 => (0xA0, hicb)
  | 2 => (locb, 0x9F)
  | 3 => (0x90, hicb)
  | 4 => (locb, 0x8F)
  | _ => (0, 0)
  end.

(** [s[i+1+k]], where [rest] is [s[i+1:]] *)
Definition at_ (rest : list Z) (k : nat) : Z := nth k rest 0.

(** One turn of the loop of [RuneCountInString] at index [i]: the number
    of bytes by which [i] advances, [c] being [s[i]] and [rest] being
    [s[i+1:]]. *)
Definition advance (c : Z) (rest : list Z) : nat :=
  if c <? RuneSelf then 1%nat
  else
    let x := first c in
    if x =? xx then 1%nat
    else
      let size := Z.to_nat (Z.land x 7) in
      if (S (length rest) <? size)%nat then 1%nat     (* i+size > ns *)
      else
        let accept := acceptRanges (Z.shiftr x 4) in
        if (at_ rest 0 <? fst accept) || (snd accept <? at_ rest 0) then 1%nat
        else if (size =? 2)%nat then size
        else if (at_ rest 1 <? locb) || (hicb <? at_ rest 1) then 1%nat
        else if (size =? 3)%nat then size
        else if (at_ rest 2 <? locb) || (hicb <? at_ rest 2) then 1%nat
        else size.

(** The loop [for i := 0; i < ns; n++]: [skip] bytes are still to be
    stepped over before the next rune starts. *)
Fixpoint countFrom (skip : nat) (s : list Z) : Z :=
  match s with
  | [] => 0
  | c :: rest =>
      match skip with
      | S k => countFrom k rest
      | O => 1 + countFrom (advance c rest - 1)%nat rest
      end
  end.

Definition RuneCountInString (s : string) : Z := countFrom 0 (bytes s).

(** [byte(x)]: conversion to [uint8] *)
Definition byte (x : Z) : Z := Z.land x 0xFF.

(** [utf8.AppendRune(nil, r)] for a rune [r] (an [int32]) *)
Definition EncodeRune (r : Z) : list Z :=
  if (0 <=? r) && (r <=? rune1Max) then [byte r]
  else if (0 <=? r) && (r <=? rune2Max) then
    [Z.lor t2 (byte (Z.shiftr r 6)); Z.lor tx (Z.land (byte r) maskx)]
  else
    let r' := if (r <? 0) || (MaxRune <? r) || ((surrogateMin <=? r) && (r <=? surrogateMax))
              then RuneError else r in
    if r' <=? rune3Max then
      [Z.lor t3 (byte (Z.shiftr r' 12));
       Z.lor tx (Z.land (byte (Z.shiftr r' 6)) maskx);
       Z.lor tx (Z.land (byte r') maskx)]
    else
      [Z.lor t4 (byte (Z.shiftr r' 18));
       Z.lor tx (Z.land (byte (Z.shiftr r' 12)) maskx);
       Z.lor tx (Z.land (byte (Z.shiftr r' 6)) maskx);
       Z.lor tx (Z.land (byte r') maskx)].

(** the UTF-8 string of a sequence of code points *)
Definition encode (cps : list Z) : string := ofBytes (flat_map EncodeRune cps).

End utf8.

(** ** strconv *)

Module strconv.

Definition maxInt : Z := 2 ^ 63 - 1.
Definition minInt : Z := - 2 ^ 63.

(** [ch -= '0'; if ch > 9 { syntax error }; n = n*10 + int(ch)] *)
Fixpoint digits (n : Z) (s : list Z) : option Z :=
  match s with
  | [] => Some n
  | ch :: s' =>
      if (0x30 <=? ch) && (ch <=? 0x39) then digits (n * 10 + (ch - 0x30)) s'
      else None
  end.

(** [strconv.Atoi] on a 64-bit platform: an optional sign, then one or
    more decimal digits; a syntax error or a value outside [int] is
    [None]. *)
Definition Atoi (s : string) : option Z :=
  match bytes s with
  | [] => None
  | c :: rest =>
      let s' := if (c =? 0x2D) || (c =? 0x2B) then rest else c :: rest in
      match s' with
      | [] => None
      | _ =>
          match digits 0 s' with
          | None => None
          | Some n =>
              let v := if c =? 0x2D then - n else n in
              if (minInt <=? v) && (v <=? maxInt) then Some v else None
          end
      end
  end.

End strconv.

(** ** The PostgreSQL side

    The statements of [main.go] name two tables,
    [customers (id, "limit", balance)] and
    [transactions (id, customer_id, amount, type, description, created_at)],
    and two stored functions, [credit] and [debit], each returning one row
    [(new_balance, success, limit)]. *)

Record customer := Customer {
  c_limit : Z;
  c_balance : Z
}.

Record transaction := Transaction {
  t_id : Z;
  t_customer_id : Z;
  t_amount : Z;
  t_type : string;
  t_description : string;
  t_created_at : Z
}.

Record DB := mkDB {
  customers : gmap Z customer;
  transactions : list transaction
}.

(** [WHERE customer_id = $1] *)
Definition rowsOf (customerID : Z) (rows : list transaction) : list transaction :=
  List.filter (fun t => t_customer_id t =? customerID) rows.

(** [ORDER BY id DESC] *)
Fixpoint insertDesc (t : transaction) (rows : list transaction) : list transaction :=
  match rows with
  | [] => [t]
  | u :: rows' =>
      if t_id u <? t_id t then t :: u :: rows' else u :: insertDesc t rows'
  end.

Definition orderByIdDesc (rows : list transaction) : list transaction :=
  fold_right insertDesc [] rows.

(** [SELECT amount, type, description, created_at FROM transactions
     WHERE customer_id = $1 ORDER BY id DESC LIMIT 10] *)
Definition selectLastTransactions (customerID : Z) (db : DB) : list transaction :=
  firstn 10 (orderByIdDesc (rowsOf customerID (transactions db))).

(** [SELECT "limit", balance FROM customers WHERE id = $1] *)
Definition selectCustomer (customerID : Z) (db : DB) : option (Z * Z) :=
  match customers db !! customerID with
  | Some c => Some (c_limit c, c_balance c)
  | None => None
  end.

(** Modelled from the spec: the sequence number of the next transaction
    of an account (db.sql, which declares the [id] column of
    [transactions], is not among the sources).  "[sequence]: per-account
    monotonically increasing integer assigned at acceptance". *)
Definition nextSequence (customerID : Z) (db : DB) : Z :=
  1 + fold_right Z.max 0 (map t_id (rowsOf customerID (transactions db))).

(** Modelled from the spec: the append to the transaction log (db.sql is
    not among the sources).  "[append(transaction)] adds one immutable
    entry with the next sequence number for its account". *)
Definition appendTransaction (customerID amount : Z) (type description : string)
    (now : Z) (db : DB) : list transaction :=
  (transactions db ++
   [Transaction (nextSequence customerID db) customerID amount type description now])%list.

(** Modelled from the spec: the stored function [credit] (db.sql is not
    among the sources).  "candidate balance = balance + amount (credit)";
    "Credit is always accepted"; "the balance update and the
    transaction-log append happen as one indivisible unit"; "Returns the
    post-update (balance, limit)".  The row is [(new_balance, success,
    limit)], as [main.go] scans it; an account that does not exist gives
    no row. *)
Definition credit (customerID amount : Z) (description : string) (now : Z) (db : DB)
    : option (Z * bool * Z) * DB :=
  match customers db !! customerID with
  | None => (None, db)
  | Some c =>
      let candidate := c_balance c + amount in
      (Some (candidate, true, c_limit c),
       mkDB (<[customerID := Customer (c_limit c) candidate]> (customers db))
            (appendTransaction customerID amount "c" description now db))
  end.

(** Modelled from the spec: the stored function [debit] (db.sql is not
    among the sources).  "candidate balance = balance - amount (debit)";
    "Debit is accepted iff candidate >= -limit; otherwise rejected as
    InsufficientLimit with no state change". *)
Definition debit (customerID amount : Z) (description : string) (now : Z) (db : DB)
    : option (Z * bool * Z) * DB :=
  match customers db !! customerID with
  | None => (None, db)
  | Some c =>
      let candidate := c_balance c - amount in
      if - c_limit c <=? candidate then
        (Some (candidate, true, c_limit c),
         mkDB (<[customerID := Customer (c_limit c) candidate]> (customers db))
              (appendTransaction customerID amount "d" description now db))
      else (Some (c_balance c, false, c_limit c), db)
  end.

(** What the handlers cannot control: the clock, and whether the store
    answers.  A failing call is one the store never executed ("backing
    store unreachable or timed out"). *)
Record env := mkEnv {
  now : Z;            (* the clock: [time.Now()], [created_at] *)
  beginErr : bool;    (* [db.Begin] returns an error *)
  rowErr : bool;      (* [QueryRow(...).Scan(...)] returns an error *)
  queryErr : bool;    (* [tx.Query] returns an error *)
  nextErr : option nat  (* [rows.Next()] fails after this many rows *)
}.

(** [db.QueryRow(ctx, "SELECT * FROM f($1, $2, $3)", ...).Scan(...)]:
    [None] is [err != nil] *)
Definition queryRowScan (f : Z -> Z -> string -> Z -> DB -> option (Z * bool * Z) * DB)
    (e : env) (customerID value : Z) (descricao : string) (db : DB)
    : option (Z * bool * Z) * DB :=
  if rowErr e then (None, db) else f customerID value descricao (now e) db.

(** ** The HTTP side *)

Record transactionRequest := mkTransactionRequest {
  Value : Z;            (* [json:"valor"] *)
  Type_ : string;       (* [json:"tipo"] *)
  Descricao : string    (* [json:"descricao"] *)
}.

Record request := mkRequest {
  Body : option transactionRequest;   (* [json.NewDecoder(r.Body).Decode(&tr)], [None] on error *)
  PathID : string                     (* [r.PathValue("id")] *)
}.

Record balanceRes := mkBalanceRes {
  Total : Z;     (* [json:"total"] *)
  Date : Z;      (* [json:"data_extrato"], the instant that is formatted *)
  Limit : Z      (* [json:"limite"] *)
}.

Record transactionRes := mkTransactionRes {
  tValue : Z;       (* [json:"valor"] *)
  tType : string;   (* [json:"tipo"] *)
  tDesc : string;   (* [json:"descricao"] *)
  tDate : Z         (* [json:"realizada_em"], the instant that is formatted *)
}.

Record response := mkResponse {
  Balance : balanceRes;                (* [json:"saldo"] *)
  Transactions : list transactionRes   (* [json:"ultimas_transacoes"] *)
}.

Inductive payload :=
| EmptyObject                          (* [{}] *)
| Saldo (limite saldo : Z)             (* [{"limite": L, "saldo": S}] *)
| Extrato (resp : response).

Record reply := mkReply {
  code : Z;         (* [w.WriteHeader] *)
  written : payload (* [w.Write] *)
}.

Definition StatusOK : Z := 200.
Definition StatusNotFound : Z := 404.
Definition StatusUnprocessableEntity : Z := 422.
Definition StatusInternalServerError : Z := 500.

(** The tail of the handler of [POST /clientes/{id}/transacoes], from
    [var newBalance int] on: the call of the stored function and the
    reply made from the row it returns. *)
Definition callStored (e : env) (customerID : Z) (tr : transactionRequest) (db : DB)
    : reply * DB :=
  let '(row, db') :=
    if (Type_ tr =? "c")%string
    then queryRowScan credit e customerID (Value tr) (Descricao tr) db
    else queryRowScan debit e customerID (Value tr) (Descricao tr) db in
  match row with
  | None => (mkReply StatusUnprocessableEntity EmptyObject, db')       (* [err != nil] *)
  | Some (newBalance, success, limit) =>
      if negb success then (mkReply StatusUnprocessableEntity EmptyObject, db')
      else (mkReply StatusOK (Saldo limit newBalance), db')
  end.

(** [POST /clientes/{id}/transacoes] *)
Definition handleTransactions (e : env) (r : request) (db : DB) : reply * DB :=
  match Body r with
  | None => (mkReply StatusUnprocessableEntity EmptyObject, db)
  | Some tr =>
      if Value tr <? 1 then (mkReply StatusUnprocessableEntity EmptyObject, db)
      else if negb (Type_ tr =? "d")%string && negb (Type_ tr =? "c")%string then
        (mkReply StatusUnprocessableEntity EmptyObject, db)
      else
        let descLen := utf8.RuneCountInString (Descricao tr) in
        if (descLen <? 1) || (descLen >? 10) then
          (mkReply StatusUnprocessableEntity EmptyObject, db)
        else
          match strconv.Atoi (PathID r) with
          | None => (mkReply StatusNotFound EmptyObject, db)
          | Some customerID =>
              if (customerID <? 1) || (customerID >? 5) then
                (mkReply StatusNotFound EmptyObject, db)
              else callStored e customerID tr db
          end
  end.

(** [rows.Scan(&t.Value, &t.Type, &t.Desc, &createdAt)] *)
Definition scanTransaction (t : transaction) : transactionRes :=
  mkTransactionRes (t_amount t) (t_type t) (t_description t) (t_created_at t).

(** [GET /clientes/{id}/extrato]; the transaction it opens only reads. *)
Definition handleStatement (e : env) (r : request) (db : DB) : reply :=
  match strconv.Atoi (PathID r) with
  | None => mkReply StatusNotFound EmptyObject
  | Some customerID =>
      if (customerID <? 1) || (customerID >? 5) then mkReply StatusNotFound EmptyObject
      else if beginErr e then mkReply StatusInternalServerError EmptyObject
      else
        (* the error of this Scan is dropped: [limit], [balance] stay 0 *)
        let '(limit, balance) :=
          if rowErr e then (0, 0)
          else match selectCustomer customerID db with
               | Some lb => lb
               | None => (0, 0)
               end in
        if queryErr e then mkReply StatusInternalServerError EmptyObject
        else
          (* [for rows.Next()]: an error ends the loop like the last row
             does, and [rows.Err()] is not read *)
          let rows := match nextErr e with
                      | Some n => firstn n (selectLastTransactions customerID db)
                      | None => selectLastTransactions customerID db
                      end in
          let transactions := map scanTransaction rows in
          mkReply StatusOK
            (Extrato (mkResponse (mkBalanceRes balance (now e) limit) transactions))
  end.

(** ** Histories of calls *)

Inductive call :=
| Apply (e : env) (r : request)
| Snapshot (e : env) (r : request).

Definition exec (db : DB) (c : call) : reply * DB :=
  match c with
  | Apply e r => handleTransactions e r db
  | Snapshot e r => (handleStatement e r db, db)
  end.

Definition run (db0 : DB) (calls : list call) : DB :=
  fold_left (fun db c => snd (exec db c)) calls db0.

(** Modelled from the spec: the provisioning of the accounts (db.sql is
    not among the sources).  "ids 1..5, each with a fixed limit";
    accounts start with balance 0 and an empty log. *)
Definition provision (limits : list Z) : DB :=
  mkDB (list_to_map (imap (fun i l => (Z.of_nat (S i), Customer l 0)) limits)) [].

(** the three checks on the body of an [apply]: the amount, the kind,
    the length of the description *)
Definition validBody (r : request) : bool :=
  match Body r with
  | None => false
  | Some tr =>
      (1 <=? Value tr)
      && ((Type_ tr =? "d")%string || (Type_ tr =? "c")%string)
      && (1 <=? utf8.RuneCountInString (Descricao tr))
      && (utf8.RuneCountInString (Descricao tr) <=? 10)
  end.

(** the account ids of the reference deployment *)
Definition provisionedID (id : Z) : bool := (1 <=? id) && (id <=? 5).

(** every account is within its overdraft limit *)
Definition withinLimit (db : DB) : Prop :=
  forall id c, customers db !! id = Some c -> - c_limit c <= c_balance c.

(** the effect of a logged transaction on the balance *)
Definition effect (t : transaction) : Z :=
  if (t_type t =? "c")%string then t_amount t
  else if (t_type t =? "d")%string then - t_amount t
  else 0.

Definition sumEffects (rows : list transaction) : Z :=
  fold_right (fun t acc => effect t + acc) 0 rows.

(** ** Start-up: the connection loop of [main] *)

Inductive event :=
| Println (s : string)    (* [println], [fmt.Println] *)
| NewPool (i : nat)       (* the call of [pgxpool.New] in turn [i] *)
| Sleep (seconds : Z).    (* [time.Sleep] *)

Record boot := mkBoot {
  locationErr : bool;     (* [time.LoadLocation] returns an error *)
  poolErr : nat -> bool   (* the call of [pgxpool.New] in turn [i] returns an error *)
}.

(** [for i := 0; i < 10; i++ { db, err = pgxpool.New(...) ... }], with
    [turns] turns left; the result is the global [db] after the loop
    ([None] is the nil pool) and what was printed. *)
Fixpoint connect (poolErr : nat -> bool) (i turns : nat) : option nat * list event :=
  match turns with
  | O => (None, [])
  | S turns' =>
      if poolErr i then
        let '(db, out) := connect poolErr (S i) turns' in
        (db, NewPool i
             :: Println "Failed to connect to DB, retrying in 5 seconds"
             :: Sleep 5 :: out)
      else (Some i, [NewPool i])
  end.

(** how [main] goes on after the loop *)
Inductive outcome :=
| Returned                (* the early [return] *)
| NilPool                 (* [db.Config()] on the nil pool *)
| Serving (pool : nat).   (* [http.ListenAndServe] *)

Definition main (b : boot) : list event * outcome :=
  if locationErr b then
    ([Println "Starting..."; Println "Error loading location:"], Returned)
  else
    let '(db, out) := connect (poolErr b) 0 10 in
    let out' := (Println "Starting..." :: out ++ [Println "Connected to DB"])%list in
    match db with
    | None => (out', NilPool)
    | Some pool => ((out' ++ [Println "Listening on :8080"])%list, Serving pool)
    end.

(** the number of calls of [pgxpool.New] in a trace *)
Definition attempts (out : list event) : nat :=
  length (List.filter (fun ev => match ev with NewPool _ => true | _ => false end) out).

(** ** Predicates on states *)

(** a value of type [uint8] *)
Definition isByte (b : Z) : Prop := 0 <= b < 256.

(** the state after an accepted transaction *)
Definition posted (id delta amount : Z) (kind description : string) (at_ : Z)
    (c : customer) (db : DB) : DB :=
  mkDB (<[id := Customer (c_limit c) (c_balance c + delta)]> (customers db))
       (appendTransaction id amount kind description at_ db).

(** sequence numbers grow along the list *)
Definition ascending (rows : list transaction) : Prop :=
  StronglySorted (fun a b => t_id a < t_id b) rows.

(** sequence numbers fall along the list *)
Definition descending (rows : list transaction) : Prop :=
  StronglySorted (fun a b => t_id b < t_id a) rows.

(** in the log of every account, sequence numbers grow in the order of
    acceptance *)
Definition sequenced (db : DB) : Prop :=
  forall id, ascending (rowsOf id (transactions db)).

(** every balance is the provisioned balance plus the effects of all
    logged transactions of the account; limits never change *)
Definition balanced (db0 db : DB) : Prop :=
  forall id,
    customers db !! id =
    (fun c0 => Customer (c_limit c0)
                 (c_balance c0 + sumEffects (rowsOf id (transactions db))))
      <$> customers db0 !! id.

(** ** Sample states and calls *)

(** five accounts, with the limits of the scenarios of the spec *)
Definition refDB : DB := provision [1000; 100; 100; 100; 100].
Definition up : env := mkEnv 0 false false false None.
Definition post (id : string) (value : Z) (kind description : string) : request :=
  mkRequest (Some (mkTransactionRequest value kind description)) id.

(** twelve credits on account 1, of 1, 2, ..., 12 *)
Definition twelve : list call :=
  map (fun n => Apply (mkEnv n false false false None) (post "1" n "c" "dep"))
    [1; 2; 3; 4; 5; 6; 7; 8; 9; 10; 11; 12].

(** ** The handlers with their metrics

    [httpRequestTotal] is a counter for every triple of labels
    [(code, method, path)]; [httpRequestDuration] is a histogram for every
    such triple, kept here as the list of its observations, the latest
    first.  An observation is the [time.Duration] that [time.Since(start)]
    gives (the code hands it over in seconds). *)

Record metrics := mkMetrics {
  httpRequestTotal : gmap (string * string * string) nat;
  httpRequestDuration : list (string * string * string * Z)
}.

(** [httpRequestTotal.WithLabelValues(code, method, path).Inc()] *)
Definition Inc (code method path : string) (m : metrics) : metrics :=
  mkMetrics
    (<[(code, method, path) :=
         S (default 0%nat (httpRequestTotal m !! (code, method, path)))]>
       (httpRequestTotal m))
    (httpRequestDuration m).

(** [httpRequestDuration.WithLabelValues(code, method, path).Observe(d)] *)
Definition Observe (code method path : string) (d : Z) (m : metrics) : metrics :=
  mkMetrics (httpRequestTotal m) ((code, method, path, d) :: httpRequestDuration m).

(** [POST /clientes/{id}/transacoes] with its metrics.  [start] is read
    once, when [handleTransactions()] builds the handler; [method] is
    [r.Method]; [finished] is the clock when the reply has been written. *)
Definition handleTransactionsMetrics (start : Z) (method : string) (finished : Z)
    (e : env) (r : request) (db : DB) (m : metrics) : reply * DB * metrics :=
  let path := " /clientes/{id}/transacoes" in
  let since := finished - start in
  match Body r with
  | None =>
      (mkReply StatusUnprocessableEntity EmptyObject, db,
       Observe "422" method path since (Inc "422" method path m))
  | Some tr =>
      if Value tr <? 1 then
        (mkReply StatusUnprocessableEntity EmptyObject, db,
         Observe "422" method path since (Inc "422" method path m))
      else if negb (Type_ tr =? "d")%string && negb (Type_ tr =? "c")%string then
        (mkReply StatusUnprocessableEntity EmptyObject, db,
         Observe "422" method path since (Inc "422" method path m))
      else
        let descLen := utf8.RuneCountInString (Descricao tr) in
        if (descLen <? 1) || (descLen >? 10) then
          (mkReply StatusUnprocessableEntity EmptyObject, db,
           Observe "422" method path since (Inc "422" method path m))
        else
          match strconv.Atoi (PathID r) with
          | None =>
              (mkReply StatusNotFound EmptyObject, db,
               Observe "404" method path since (Inc "404" method path m))
          | Some customerID =>
              if (customerID <? 1) || (customerID >? 5) then
                (mkReply StatusNotFound EmptyObject, db,
                 Observe "404" method path since (Inc "404" method path m))
              else
                let '(row, db') :=
                  if (Type_ tr =? "c")%string
                  then queryRowScan credit e customerID (Value tr) (Descricao tr) db
                  else queryRowScan debit e customerID (Value tr) (Descricao tr) db in
                match row with
                | None =>
                    (mkReply StatusUnprocessableEntity EmptyObject, db',
                     Observe "422" method path since (Inc "422" method path m))
                | Some (newBalance, success, limit) =>
                    if negb success then
                      (mkReply StatusUnprocessableEntity EmptyObject, db',
                       Observe "422" method path since (Inc "422" method path m))
                    else
                      (mkReply StatusOK (Saldo limit newBalance), db',
                       Observe "200" method path since (Inc "200" method path m))
                end
          end
  end.

(** [GET /clientes/{id}/extrato] with its metrics.  [arrived] is the
    clock at [start := time.Now()], the first statement of the handler. *)
Definition handleStatementMetrics (method : string) (arrived finished : Z)
    (e : env) (r : request) (db : DB) (m : metrics) : reply * metrics :=
  let path := " /clientes/{id}/extrato" in
  let since := finished - arrived in
  match strconv.Atoi (PathID r) with
  | None =>
      (mkReply StatusNotFound EmptyObject,
       Observe "404" method path since (Inc "404" method path m))
  | Some customerID =>
      if (customerID <? 1) || (customerID >? 5) then
        (mkReply StatusNotFound EmptyObject,
         Observe "404" method path since (Inc "404" method path m))
      else if beginErr e then
        (mkReply StatusInternalServerError EmptyObject,
         Observe "500" method path since (Inc "500" method path m))
      else
        let '(limit, balance) :=
          if rowErr e then (0, 0)
          else match selectCustomer customerID db with
               | Some lb => lb
               | None => (0, 0)
               end in
        if queryErr e then
          (mkReply StatusInternalServerError EmptyObject,
           Observe "500" method path since (Inc "500" method path m))
        else
          let rows := match nextErr e with
                      | Some n => firstn n (selectLastTransactions customerID db)
                      | None => selectLastTransactions customerID db
                      end in
          let transactions := map scanTransaction rows in
          (mkReply StatusOK
             (Extrato (mkResponse (mkBalanceRes balance (now e) limit) transactions)),
           Observe "200" method path since (Inc "200" method path m))
  end.

(** a request as the server sees it, with what the metrics need *)
Inductive served :=
| Posted (method : string) (finished : Z) (e : env) (r : request)
| Fetched (method : string) (arrived finished : Z) (e : env) (r : request).

(** one request served by the handlers that [main] registers; [start] is
    the instant at which the handler of the transactions was built *)
Definition serve (start : Z) (s : DB * metrics) (c : served) : DB * metrics :=
  match c with
  | Posted method finished e r =>
      let '(_, db', m') :=
        handleTransactionsMetrics start method finished e r (fst s) (snd s) in
      (db', m')
  | Fetched method arrived finished e r =>
      (fst s, snd (handleStatementMetrics method arrived finished e r (fst s) (snd s)))
  end.

Definition serveAll (start : Z) (cs : list served) (s : DB * metrics) : DB * metrics :=
  fold_left (serve start) cs s.

(** the same request without its metrics *)
Definition plain (c : served) : call :=
  match c with
  | Posted _ _ e r => Apply e r
  | Fetched _ _ _ e r => Snapshot e r
  end.

(** the sum of all counters of [httpRequestTotal] *)
Definition counted (m : metrics) : nat :=
  map_fold (fun _ n acc => (n + acc)%nat) 0%nat (httpRequestTotal m).

(** the value of one counter *)
Definition counter (code method path : string) (m : metrics) : nat :=
  default 0%nat (httpRequestTotal m !! (code, method, path)).

(** ** Measures of a start-up trace *)

(** the seconds spent in [time.Sleep] *)
Definition slept (out : list event) : Z :=
  fold_right (fun ev acc => match ev with Sleep s => s + acc | _ => acc end) 0 out.

(** what turn [i] of the loop prints when [pgxpool.New] fails *)
Definition failedTurn (i : nat) : list event :=
  [NewPool i; Println "Failed to connect to DB, retrying in 5 seconds"; Sleep 5].

(** ** Decimal digits *)

Definition isDigit (b : Z) : Prop := 0x30 <= b <= 0x39.

(** the number that a sequence of decimal digits writes *)
Definition decimal (ds : list Z) : Z :=
  fold_left (fun n ch => n * 10 + (ch - 0x30)) ds 0.

(** ** More predicates and samples *)

(** the path ids that reach an account: an optional [+], then decimal
    digits that write a number from 1 to 5 *)
Definition servedID (s : string) : Prop :=
  exists sign ds,
    bytes s = (sign ++ ds)%list /\ (sign = [] \/ sign = [0x2B]) /\
    ds <> [] /\ Forall isDigit ds /\ 1 <= decimal ds <= 5.




(** one request recorded under the labels [(code, method, path)] with
    the duration [d] *)
Definition recorded (code method path : string) (d : Z) (m : metrics) : metrics :=
  Observe code method path d (Inc code method path m).

(** the observations of the histogram under one triple of labels *)
Definition observed (code method path : string) (m : metrics) : nat :=
  length (List.filter
            (fun o => bool_decide (fst o = (code, method, path)))
            (httpRequestDuration m)).

(** the counter and the histogram agree, label by label *)
Definition agreeing (m : metrics) : Prop :=
  forall code method path, counter code method path m = observed code method path m.

(** the metrics of a server that has served nothing yet *)
Definition noMetrics : metrics := mkMetrics ∅ [].

(** ** Tactics *)

(** case analysis on every comparison of the goal *)
Ltac zcmp :=
  repeat match goal with
    | |- context [?a <? ?b] => destruct (Z.ltb_spec a b); try lia
    | |- context [?a <=? ?b] => destruct (Z.leb_spec a b); try lia
    | |- context [?a =? ?b] => destruct (Z.eqb_spec a b); try lia
    end; try reflexivity.

(** evaluation of the table entry [x] of [utf8.first]: its size [n] and
    its accept range [lo], [hi] *)
Ltac table x n lo hi :=
  change (x =? utf8.xx) with false;
  change (Z.to_nat (Z.land x 7)) with n;
  change (utf8.acceptRanges (Z.shiftr x 4)) with (lo, hi);
  cbn [fst snd utf8.at_ nth length Nat.ltb Nat.leb Nat.eqb];
  unfold utf8.locb, utf8.hicb; zcmp.

(** * Proofs *)

(** ** Bytes and UTF-8 *)

Lemma byteOfAscii_asciiOfByte b : 0 <= b < 256 -> byteOfAscii (asciiOfByte b) = b.
Proof.
  intros Hb. unfold byteOfAscii, asciiOfByte.
  rewrite N_ascii_embedding by lia. lia.
Qed.

Lemma bytes_ofBytes bs :
  Forall (fun b => 0 <= b < 256) bs -> bytes (ofBytes bs) = bs.
Proof.
  intros Hbs. unfold bytes, ofBytes.
  rewrite list_ascii_of_string_of_list_ascii.
  induction Hbs as [|b bs Hb _ IH]; simpl; [reflexivity|].
  rewrite byteOfAscii_asciiOfByte by exact Hb. now rewrite IH.
Qed.

(** a property checked on every number below [n] holds below [n] *)
Lemma forall_below (P : Z -> bool) (n : nat) :
  forallb P (map Z.of_nat (seq 0 n)) = true ->
  forall x, 0 <= x < Z.of_nat n -> P x = true.
Proof.
  intros Hall x Hx. rewrite forallb_forall in Hall. apply Hall.
  rewrite <- (Z2Nat.id x) by lia. apply in_map, in_seq. lia.
Qed.

Lemma lor_tx x : 0 <= x < 64 -> Z.lor utf8.tx x = 128 + x.
Proof.
  intros Hx. apply Z.eqb_eq.
  apply (forall_below (fun x => Z.lor utf8.tx x =? 128 + x) 64); [reflexivity | lia].
Qed.

Lemma lor_t2 x : 0 <= x < 32 -> Z.lor utf8.t2 x = 192 + x.
Proof.
  intros Hx. apply Z.eqb_eq.
  apply (forall_below (fun x => Z.lor utf8.t2 x =? 192 + x) 32); [reflexivity | lia].
Qed.

Lemma lor_t3 x : 0 <= x < 16 -> Z.lor utf8.t3 x = 224 + x.
Proof.
  intros Hx. apply Z.eqb_eq.
  apply (forall_below (fun x => Z.lor utf8.t3 x =? 224 + x) 16); [reflexivity | lia].
Qed.

Lemma lor_t4 x : 0 <= x < 8 -> Z.lor utf8.t4 x = 240 + x.
Proof.
  intros Hx. apply Z.eqb_eq.
  apply (forall_below (fun x => Z.lor utf8.t4 x =? 240 + x) 8); [reflexivity | lia].
Qed.

Lemma byte_mod x : utf8.byte x = x mod 256.
Proof. unfold utf8.byte. change 255 with (Z.ones 8). now rewrite Z.land_ones by lia. Qed.

Lemma land_maskx x : Z.land x utf8.maskx = x mod 64.
Proof. unfold utf8.maskx. change 63 with (Z.ones 6). now rewrite Z.land_ones by lia. Qed.

Lemma first_lead2 c : 194 <= c <= 223 -> utf8.first c = utf8.s1.
Proof. intros Hc. unfold utf8.first. zcmp. Qed.

Lemma first_lead3 c :
  224 <= c <= 239 ->
  utf8.first c = if c =? 224 then utf8.s2 else if c =? 237 then utf8.s4 else utf8.s3.
Proof. intros Hc. unfold utf8.first. zcmp. Qed.

Lemma first_lead4 c :
  240 <= c <= 244 ->
  utf8.first c = if c =? 240 then utf8.s5 else if c =? 244 then utf8.s7 else utf8.s6.
Proof. intros Hc. unfold utf8.first. zcmp. Qed.

Lemma advance_ascii c rest : c < 128 -> utf8.advance c rest = 1%nat.
Proof. intros Hc. unfold utf8.advance, utf8.RuneSelf. zcmp. Qed.

Lemma advance_lead2 c b1 tail :
  194 <= c <= 223 -> 128 <= b1 <= 191 -> utf8.advance c (b1 :: tail) = 2%nat.
Proof.
  intros Hc Hb. unfold utf8.advance. rewrite (first_lead2 c Hc).
  unfold utf8.RuneSelf. destruct (Z.ltb_spec c 128); [lia|].
  table utf8.s1 2%nat 128 191.
Qed.

Lemma advance_lead3 c b1 b2 tail :
  224 <= c <= 239 -> 128 <= b1 <= 191 -> 128 <= b2 <= 191 ->
  (c = 224 -> 160 <= b1) -> (c = 237 -> b1 <= 159) ->
  utf8.advance c (b1 :: b2 :: tail) = 3%nat.
Proof.
  intros Hc Hb1 Hb2 Hlo Hhi. unfold utf8.advance. rewrite (first_lead3 c Hc).
  unfold utf8.RuneSelf. destruct (Z.ltb_spec c 128); [lia|].
  destruct (Z.eqb_spec c 224); [|destruct (Z.eqb_spec c 237)].
  - table utf8.s2 3%nat 160 191.
  - table utf8.s4 3%nat 128 159.
  - table utf8.s3 3%nat 128 191.
Qed.

Lemma advance_lead4 c b1 b2 b3 tail :
  240 <= c <= 244 -> 128 <= b1 <= 191 -> 128 <= b2 <= 191 -> 128 <= b3 <= 191 ->
  (c = 240 -> 144 <= b1) -> (c = 244 -> b1 <= 143) ->
  utf8.advance c (b1 :: b2 :: b3 :: tail) = 4%nat.
Proof.
  intros Hc Hb1 Hb2 Hb3 Hlo Hhi. unfold utf8.advance. rewrite (first_lead4 c Hc).
  unfold utf8.RuneSelf. destruct (Z.ltb_spec c 128); [lia|].
  destruct (Z.eqb_spec c 240); [|destruct (Z.eqb_spec c 244)].
  - table utf8.s5 4%nat 144 191.
  - table utf8.s7 4%nat 128 143.
  - table utf8.s6 4%nat 128 191.
Qed.

Lemma cont_val y :
  Z.lor utf8.tx (Z.land (utf8.byte y) utf8.maskx) = 128 + (y mod 256) mod 64.
Proof.
  rewrite land_maskx, byte_mod, lor_tx; [reflexivity | apply Z.mod_pos_bound; lia].
Qed.

Lemma lead2_val r : 0 <= r <= 2047 -> Z.lor utf8.t2 (utf8.byte (Z.shiftr r 6)) = 192 + r / 64.
Proof.
  intros Hr. rewrite byte_mod, Z.shiftr_div_pow2 by lia. change (2 ^ 6) with 64.
  rewrite Z.mod_small by (Z.div_mod_to_equations; lia).
  apply lor_t2. Z.div_mod_to_equations; lia.
Qed.

Lemma lead3_val r : 0 <= r <= 65535 -> Z.lor utf8.t3 (utf8.byte (Z.shiftr r 12)) = 224 + r / 4096.
Proof.
  intros Hr. rewrite byte_mod, Z.shiftr_div_pow2 by lia. change (2 ^ 12) with 4096.
  rewrite Z.mod_small by (Z.div_mod_to_equations; lia).
  apply lor_t3. Z.div_mod_to_equations; lia.
Qed.

Lemma lead4_val r : 0 <= r <= 1114111 -> Z.lor utf8.t4 (utf8.byte (Z.shiftr r 18)) = 240 + r / 262144.
Proof.
  intros Hr. rewrite byte_mod, Z.shiftr_div_pow2 by lia. change (2 ^ 18) with 262144.
  rewrite Z.mod_small by (Z.div_mod_to_equations; lia).
  apply lor_t4. Z.div_mod_to_equations; lia.
Qed.

Lemma advance_three r tail :
  2048 <= r <= 65535 -> ~ (55296 <= r <= 57343) ->
  let c := Z.lor utf8.t3 (utf8.byte (Z.shiftr r 12)) in
  let b1 := Z.lor utf8.tx (Z.land (utf8.byte (Z.shiftr r 6)) utf8.maskx) in
  let b2 := Z.lor utf8.tx (Z.land (utf8.byte r) utf8.maskx) in
  utf8.advance c (b1 :: b2 :: tail) = 3%nat /\ Forall isByte [c; b1; b2].
Proof.
  intros Hr Hs c b1 b2. subst c b1 b2.
  rewrite lead3_val by lia. rewrite !cont_val.
  rewrite Z.shiftr_div_pow2 by lia. change (2 ^ 6) with 64.
  split.
  - apply advance_lead3; Z.div_mod_to_equations; lia.
  - unfold isByte. repeat constructor; Z.div_mod_to_equations; lia.
Qed.

Lemma advance_four r tail :
  65536 <= r <= 1114111 ->
  let c := Z.lor utf8.t4 (utf8.byte (Z.shiftr r 18)) in
  let b1 := Z.lor utf8.tx (Z.land (utf8.byte (Z.shiftr r 12)) utf8.maskx) in
  let b2 := Z.lor utf8.tx (Z.land (utf8.byte (Z.shiftr r 6)) utf8.maskx) in
  let b3 := Z.lor utf8.tx (Z.land (utf8.byte r) utf8.maskx) in
  utf8.advance c (b1 :: b2 :: b3 :: tail) = 4%nat /\ Forall isByte [c; b1; b2; b3].
Proof.
  intros Hr c b1 b2 b3. subst c b1 b2 b3.
  rewrite lead4_val by lia. rewrite !cont_val.
  rewrite !Z.shiftr_div_pow2 by lia. change (2 ^ 6) with 64. change (2 ^ 12) with 4096.
  split.
  - apply advance_lead4; Z.div_mod_to_equations; lia.
  - unfold isByte. repeat constructor; Z.div_mod_to_equations; lia.
Qed.

Lemma advance_two r tail :
  128 <= r <= 2047 ->
  let c := Z.lor utf8.t2 (utf8.byte (Z.shiftr r 6)) in
  let b1 := Z.lor utf8.tx (Z.land (utf8.byte r) utf8.maskx) in
  utf8.advance c (b1 :: tail) = 2%nat /\ Forall isByte [c; b1].
Proof.
  intros Hr c b1. subst c b1.
  rewrite lead2_val by lia. rewrite !cont_val.
  split.
  - apply advance_lead2; Z.div_mod_to_equations; lia.
  - unfold isByte. repeat constructor; Z.div_mod_to_equations; lia.
Qed.

Lemma EncodeRune_cases r :
  (0 <= r <= 127 /\ utf8.EncodeRune r = [utf8.byte r]) \/
  (128 <= r <= 2047 /\
   utf8.EncodeRune r =
     [Z.lor utf8.t2 (utf8.byte (Z.shiftr r 6));
      Z.lor utf8.tx (Z.land (utf8.byte r) utf8.maskx)]) \/
  (exists r', (r' = r \/ r' = utf8.RuneError) /\
     2048 <= r' <= 65535 /\ ~ (55296 <= r' <= 57343) /\
     utf8.EncodeRune r =
       [Z.lor utf8.t3 (utf8.byte (Z.shiftr r' 12));
        Z.lor utf8.tx (Z.land (utf8.byte (Z.shiftr r' 6)) utf8.maskx);
        Z.lor utf8.tx (Z.land (utf8.byte r') utf8.maskx)]) \/
  (65536 <= r <= 1114111 /\
   utf8.EncodeRune r =
     [Z.lor utf8.t4 (utf8.byte (Z.shiftr r 18));
      Z.lor utf8.tx (Z.land (utf8.byte (Z.shiftr r 12)) utf8.maskx);
      Z.lor utf8.tx (Z.land (utf8.byte (Z.shiftr r 6)) utf8.maskx);
      Z.lor utf8.tx (Z.land (utf8.byte r) utf8.maskx)]).
Proof.
  unfold utf8.EncodeRune.
  destruct ((0 <=? r) && (r <=? utf8.rune1Max)) eqn:E1.
  { left. unfold utf8.rune1Max in E1. split; [lia | reflexivity]. }
  destruct ((0 <=? r) && (r <=? utf8.rune2Max)) eqn:E2.
  { right; left. unfold utf8.rune1Max in E1. unfold utf8.rune2Max in E2.
    split; [lia | reflexivity]. }
  right; right.
  unfold utf8.rune1Max in E1. unfold utf8.rune2Max in E2.
  destruct ((r <? 0) || (utf8.MaxRune <? r) ||
            (utf8.surrogateMin <=? r) && (r <=? utf8.surrogateMax)) eqn:E3.
  { left. exists utf8.RuneError. change (utf8.RuneError <=? utf8.rune3Max) with true.
    cbv iota. unfold utf8.RuneError. repeat split; [now right | lia | lia | lia]. }
  unfold utf8.MaxRune, utf8.surrogateMin, utf8.surrogateMax in E3.
  destruct (r <=? utf8.rune3Max) eqn:E4; unfold utf8.rune3Max in E4.
  - left. exists r. repeat split; [now left | lia | lia | lia].
  - right. split; [lia | reflexivity].
Qed.

Lemma EncodeRune_advance r tail :
  exists c rest,
    utf8.EncodeRune r = c :: rest /\
    utf8.advance c (rest ++ tail) = S (length rest) /\
    Forall isByte (c :: rest).
Proof.
  destruct (EncodeRune_cases r) as [[Hr ->] | [[Hr ->] | [(r' & _ & Hr & Hs & ->) | [Hr ->]]]];
    eexists _, _; (split; [reflexivity|]).
  - rewrite byte_mod, Z.mod_small by lia.
    split; [apply advance_ascii; lia | repeat constructor; lia].
  - now apply advance_two.
  - now apply advance_three.
  - now apply advance_four.
Qed.

Lemma countFrom_skip pre tail :
  utf8.countFrom (length pre) (pre ++ tail) = utf8.countFrom 0 tail.
Proof. induction pre as [|b pre IH]; [reflexivity | exact IH]. Qed.

Lemma countFrom_EncodeRune r tail :
  utf8.countFrom 0 (utf8.EncodeRune r ++ tail) = 1 + utf8.countFrom 0 tail.
Proof.
  destruct (EncodeRune_advance r tail) as (c & rest & -> & Hadv & _).
  cbn [app utf8.countFrom]. rewrite Hadv.
  replace (S (length rest) - 1)%nat with (length rest) by lia.
  now rewrite countFrom_skip.
Qed.

Lemma EncodeRune_isByte r : Forall isByte (utf8.EncodeRune r).
Proof. destruct (EncodeRune_advance r []) as (c & rest & -> & _ & H). exact H. Qed.

Lemma RuneCount_encode cps :
  utf8.RuneCountInString (utf8.encode cps) = Z.of_nat (length cps).
Proof.
  unfold utf8.RuneCountInString, utf8.encode.
  rewrite bytes_ofBytes.
  - induction cps as [|r cps IH]; [reflexivity|].
    cbn [flat_map length]. rewrite countFrom_EncodeRune, IH. lia.
  - induction cps as [|r cps IH]; [constructor|].
    cbn [flat_map]. apply Forall_app. split; [apply EncodeRune_isByte | exact IH].
Qed.

(** ** The handlers, case by case *)

Lemma callStored_inv e id tr db :
  callStored e id tr db = (mkReply StatusUnprocessableEntity EmptyObject, db) \/
  exists c kind delta,
    customers db !! id = Some c /\ rowErr e = false /\
    ((Type_ tr = "c" /\ kind = "c" /\ delta = Value tr) \/
     (Type_ tr <> "c" /\ kind = "d" /\ delta = - Value tr /\
      - c_limit c <= c_balance c + delta)) /\
    callStored e id tr db =
      (mkReply StatusOK (Saldo (c_limit c) (c_balance c + delta)),
       posted id delta (Value tr) kind (Descricao tr) (now e) c db).
Proof.
  unfold callStored, queryRowScan.
  destruct (rowErr e) eqn:Herr.
  { left. now destruct (Type_ tr =? "c")%string. }
  destruct (String.eqb_spec (Type_ tr) "c") as [Hc | Hc].
  - unfold credit. destruct (customers db !! id) as [c|] eqn:Hid; [|now left].
    right. exists c, "c", (Value tr). repeat split; auto.
  - unfold debit. destruct (customers db !! id) as [c|] eqn:Hid; [|now left].
    destruct (Z.leb_spec (- c_limit c) (c_balance c - Value tr)); [|now left].
    right. exists c, "d", (- Value tr). repeat split; auto.
Qed.

Lemma handleTransactions_inv e r db :
  (snd (handleTransactions e r db) = db /\
   (code (fst (handleTransactions e r db)) = StatusUnprocessableEntity \/
    code (fst (handleTransactions e r db)) = StatusNotFound)) \/
  exists tr id c kind delta,
    Body r = Some tr /\ 1 <= Value tr /\ strconv.Atoi (PathID r) = Some id /\
    customers db !! id = Some c /\
    ((kind = "c" /\ delta = Value tr) \/
     (kind = "d" /\ delta = - Value tr /\ - c_limit c <= c_balance c + delta)) /\
    handleTransactions e r db =
      (mkReply StatusOK (Saldo (c_limit c) (c_balance c + delta)),
       posted id delta (Value tr) kind (Descricao tr) (now e) c db).
Proof.
  unfold handleTransactions.
  destruct (Body r) as [tr|]; [|left; auto].
  destruct (Z.ltb_spec (Value tr) 1); [left; auto|].
  destruct (negb (Type_ tr =? "d")%string && negb (Type_ tr =? "c")%string); [left; auto|].
  destruct ((utf8.RuneCountInString (Descricao tr) <? 1)
            || (utf8.RuneCountInString (Descricao tr) >? 10)); [left; auto|].
  destruct (strconv.Atoi (PathID r)) as [id|]; [|left; auto].
  destruct ((id <? 1) || (id >? 5)); [left; auto|].
  destruct (callStored_inv e id tr db) as [-> | (c & kind & delta & Hc & _ & Hk & ->)];
    [left; auto|].
  right. exists tr, id, c, kind, delta. repeat split; auto.
  destruct Hk as [(_ & -> & ->) | (_ & -> & -> & Hfloor)]; auto.
Qed.

(** every history keeps what every call keeps *)
Lemma run_invariant (P : DB -> Prop) :
  (forall e r db, P db -> P (snd (handleTransactions e r db))) ->
  forall calls db0, P db0 -> P (run db0 calls).
Proof.
  intros Hstep calls. unfold run.
  induction calls as [|c calls IH]; intros db0 H0; [exact H0|].
  cbn [fold_left]. apply IH. destruct c as [e r | e r]; cbn [exec snd]; auto.
Qed.

Lemma withinLimit_step e r db :
  withinLimit db -> withinLimit (snd (handleTransactions e r db)).
Proof.
  intros Hdb.
  destruct (handleTransactions_inv e r db)
    as [[-> _] | (tr & id & c & kind & delta & _ & Hv & _ & Hc & Hk & ->)]; [exact Hdb|].
  cbn [snd]. intros id' c' Hc'. unfold posted in Hc'. cbn [customers] in Hc'.
  destruct (decide (id = id')) as [<- | Hne].
  - rewrite lookup_insert_eq in Hc'. injection Hc' as <-. cbn [c_limit c_balance].
    specialize (Hdb id c Hc). destruct Hk as [[_ ->] | (_ & -> & Hfloor)]; lia.
  - rewrite lookup_insert_ne in Hc' by exact Hne. exact (Hdb id' c' Hc').
Qed.

(** a rejected call changes nothing *)
Lemma rejected_unchanged e r db :
  code (fst (handleTransactions e r db)) <> StatusOK ->
  snd (handleTransactions e r db) = db.
Proof.
  intros Hcode.
  destruct (handleTransactions_inv e r db)
    as [[Hdb _] | (tr & id & c & kind & delta & _ & _ & _ & _ & _ & Heq)]; [exact Hdb|].
  rewrite Heq in Hcode. now contradiction Hcode.
Qed.

(** ** The ledger *)

Lemma rowsOf_app id l1 l2 : rowsOf id (l1 ++ l2) = (rowsOf id l1 ++ rowsOf id l2)%list.
Proof. unfold rowsOf. apply List.filter_app. Qed.

Lemma sumEffects_app l1 l2 : sumEffects (l1 ++ l2) = sumEffects l1 + sumEffects l2.
Proof.
  unfold sumEffects. induction l1 as [|t l1 IH]; cbn [app fold_right]; lia.
Qed.

Lemma le_fold_max x l : In x l -> x <= fold_right Z.max 0 l.
Proof.
  induction l as [|y l IH]; cbn; [tauto|].
  intros [-> | Hin]; [lia | specialize (IH Hin); lia].
Qed.

Lemma before_nextSequence id db t :
  In t (rowsOf id (transactions db)) -> t_id t < nextSequence id db.
Proof.
  intros Hin. unfold nextSequence.
  pose proof (le_fold_max (t_id t) (map t_id (rowsOf id (transactions db)))
                (in_map t_id _ _ Hin)). lia.
Qed.

Lemma StronglySorted_snoc {A} (R : A -> A -> Prop) l u :
  StronglySorted R l -> (forall t, In t l -> R t u) -> StronglySorted R (l ++ [u]).
Proof.
  induction 1 as [|a l Hl IH Ha]; intros Hu; cbn.
  - repeat constructor.
  - constructor.
    + apply IH. intros t Ht. apply Hu. now right.
    + apply Forall_app. split; [exact Ha|]. repeat constructor. apply Hu. now left.
Qed.

Lemma ascending_snoc l u :
  ascending l -> (forall t, In t l -> t_id t < t_id u) -> ascending (l ++ [u]).
Proof. exact (StronglySorted_snoc (fun a b => t_id a < t_id b) l u). Qed.

Lemma rowsOf_posted id' id delta amount kind description at_ c db :
  rowsOf id' (transactions (posted id delta amount kind description at_ c db)) =
  (rowsOf id' (transactions db) ++
   (if id =? id'
    then [Transaction (nextSequence id db) id amount kind description at_]
    else []))%list.
Proof.
  unfold posted, appendTransaction. cbn [transactions]. rewrite rowsOf_app.
  f_equal.
Qed.

Lemma sequenced_posted id delta amount kind description at_ c db :
  sequenced db -> sequenced (posted id delta amount kind description at_ c db).
Proof.
  intros Hdb id'. rewrite rowsOf_posted.
  destruct (Z.eqb_spec id id') as [<- | Hne].
  - apply ascending_snoc; [apply Hdb|].
    intros t Ht. cbn [t_id]. now apply before_nextSequence.
  - rewrite app_nil_r. apply Hdb.
Qed.

Lemma balanced_posted db0 id delta amount kind description at_ c db :
  customers db !! id = Some c ->
  effect (Transaction (nextSequence id db) id amount kind description at_) = delta ->
  balanced db0 db ->
  balanced db0 (posted id delta amount kind description at_ c db).
Proof.
  intros Hc Heff Hdb id'. rewrite rowsOf_posted.
  unfold posted. cbn [customers].
  destruct (Z.eqb_spec id id') as [<- | Hne].
  - rewrite lookup_insert_eq. specialize (Hdb id). rewrite Hc in Hdb.
    destruct (customers db0 !! id) as [c0|]; [|discriminate].
    cbn in Hdb |- *. injection Hdb as ->. cbn [c_limit c_balance].
    rewrite sumEffects_app. cbn [sumEffects fold_right]. rewrite Heff.
    do 2 f_equal. lia.
  - rewrite lookup_insert_ne by exact Hne. rewrite app_nil_r. apply Hdb.
Qed.

Lemma sequenced_step e r db :
  sequenced db -> sequenced (snd (handleTransactions e r db)).
Proof.
  intros Hdb.
  destruct (handleTransactions_inv e r db)
    as [[-> _] | (tr & id & c & kind & delta & _ & _ & _ & _ & _ & ->)]; [exact Hdb|].
  now apply sequenced_posted.
Qed.

Lemma balanced_step db0 e r db :
  balanced db0 db -> balanced db0 (snd (handleTransactions e r db)).
Proof.
  intros Hdb.
  destruct (handleTransactions_inv e r db)
    as [[-> _] | (tr & id & c & kind & delta & _ & _ & _ & Hc & Hk & ->)]; [exact Hdb|].
  apply balanced_posted; [exact Hc | | exact Hdb].
  destruct Hk as [[-> ->] | (-> & -> & _)]; reflexivity.
Qed.

(** ** ORDER BY id DESC LIMIT 10 *)

Lemma insertDesc_smallest t rows :
  (forall u, In u rows -> t_id t < t_id u) -> insertDesc t rows = (rows ++ [t])%list.
Proof.
  induction rows as [|u rows IH]; intros Hlt; cbn; [reflexivity|].
  destruct (Z.ltb_spec (t_id u) (t_id t)) as [Hut | _].
  - specialize (Hlt u (or_introl eq_refl)). lia.
  - f_equal. apply IH. intros v Hv. apply Hlt. now right.
Qed.

Lemma orderByIdDesc_ascending rows : ascending rows -> orderByIdDesc rows = rev rows.
Proof.
  induction 1 as [|t rows Hrows IH Ht]; [reflexivity|].
  cbn [orderByIdDesc fold_right rev]. fold (orderByIdDesc rows). rewrite IH.
  apply insertDesc_smallest. intros u Hu. apply in_rev in Hu.
  rewrite List.Forall_forall in Ht. now apply Ht.
Qed.

Lemma descending_rev rows : ascending rows -> descending (rev rows).
Proof.
  unfold ascending, descending. induction 1 as [|t rows Hrows IH Ht]; cbn; [constructor|].
  apply (StronglySorted_snoc (fun a b => t_id b < t_id a)); [exact IH|].
  intros u Hu. apply in_rev in Hu. rewrite List.Forall_forall in Ht. now apply Ht.
Qed.

Lemma In_firstn {A} n (l : list A) x : In x (firstn n l) -> In x l.
Proof.
  revert n. induction l as [|a l IH]; intros [|n]; cbn; try tauto.
  intros [-> | Hin]; [now left | right; eauto].
Qed.

Lemma descending_firstn n rows : descending rows -> descending (firstn n rows).
Proof.
  unfold descending. intros Hrows. revert n.
  induction Hrows as [|t rows Hrows IH Ht]; intros [|n]; cbn; try constructor.
  - apply IH.
  - rewrite List.Forall_forall in Ht |- *. intros u Hu. apply Ht.
    now apply In_firstn in Hu.
Qed.

(** the statement query on a log in which sequence numbers grow: the last
    ten entries of the account, the latest first *)
Lemma selectLastTransactions_sequenced id db :
  sequenced db ->
  let log := rowsOf id (transactions db) in
  selectLastTransactions id db = rev (skipn (length log - 10) log) /\
  descending (selectLastTransactions id db).
Proof.
  intros Hdb log. unfold selectLastTransactions. fold log.
  rewrite (orderByIdDesc_ascending log (Hdb id)). split.
  - apply firstn_rev.
  - apply descending_firstn, descending_rev, Hdb.
Qed.

Lemma validBody_true r :
  validBody r = true ->
  exists tr, Body r = Some tr /\
    (Value tr <? 1) = false /\
    negb (Type_ tr =? "d")%string && negb (Type_ tr =? "c")%string = false /\
    (utf8.RuneCountInString (Descricao tr) <? 1)
    || (utf8.RuneCountInString (Descricao tr) >? 10) = false.
Proof.
  unfold validBody. destruct (Body r) as [tr|]; [|discriminate].
  intros H. exists tr. split; [reflexivity|].
  destruct (Type_ tr =? "d")%string, (Type_ tr =? "c")%string; cbn in *; lia.
Qed.

Lemma validBody_false r :
  validBody r = false ->
  forall e db, handleTransactions e r db = (mkReply StatusUnprocessableEntity EmptyObject, db).
Proof.
  unfold validBody, handleTransactions. intros H e db.
  destruct (Body r) as [tr|]; [|reflexivity].
  destruct (Z.ltb_spec (Value tr) 1); [reflexivity|].
  destruct (Type_ tr =? "d")%string, (Type_ tr =? "c")%string; cbn [negb andb];
    try reflexivity.
  all: destruct (Z.ltb_spec (utf8.RuneCountInString (Descricao tr)) 1); [reflexivity|].
  all: destruct (Z.gtb_spec (utf8.RuneCountInString (Descricao tr)) 10); [reflexivity|].
  all: cbn in H; lia.
Qed.

Lemma handleTransactions_valid e r db :
  validBody r = true ->
  handleTransactions e r db =
  match Body r, strconv.Atoi (PathID r) with
  | Some tr, Some id =>
      if provisionedID id then callStored e id tr db
      else (mkReply StatusNotFound EmptyObject, db)
  | _, _ => (mkReply StatusNotFound EmptyObject, db)
  end.
Proof.
  intros (tr & Hb & Hv & Hk & Hd)%validBody_true.
  unfold handleTransactions. rewrite Hb, Hv, Hk, Hd.
  destruct (strconv.Atoi (PathID r)) as [id|]; [|reflexivity].
  unfold provisionedID.
  destruct (Z.ltb_spec id 1), (Z.gtb_spec id 5), (Z.leb_spec 1 id), (Z.leb_spec id 5);
    try lia; reflexivity.
Qed.

Lemma callStored_code e id tr db :
  code (fst (callStored e id tr db)) = StatusOK \/
  code (fst (callStored e id tr db)) = StatusUnprocessableEntity.
Proof.
  destruct (callStored_inv e id tr db) as [-> | (c & k & d & _ & _ & _ & ->)]; auto.
Qed.

(** * The claims *)

Lemma withinLimit_run db0 calls : withinLimit db0 -> withinLimit (run db0 calls).
Proof. apply (run_invariant withinLimit). intros e r db. apply withinLimit_step. Qed.

Lemma callStored_debit e id tr db c :
  Type_ tr = "d" -> rowErr e = false -> customers db !! id = Some c ->
  callStored e id tr db =
  if - c_limit c <=? c_balance c - Value tr then
    (mkReply StatusOK (Saldo (c_limit c) (c_balance c - Value tr)),
     posted id (- Value tr) (Value tr) "d" (Descricao tr) (now e) c db)
  else (mkReply StatusUnprocessableEntity EmptyObject, db).
Proof.
  intros Hk He Hc. unfold callStored, queryRowScan, debit. rewrite Hk, He, Hc.
  cbn [String.eqb Ascii.eqb Bool.eqb].
  now destruct (- c_limit c <=? c_balance c - Value tr).
Qed.

(** C1: after any history of calls from a state in which every account
    is within its limit, every account is within its limit
    ([balance >= -limit]); and in such a state a debit on a provisioned
    account, with a valid body and an answering store, is accepted if and
    only if the candidate balance [balance - amount] is at least
    [-limit]: when accepted the account holds the candidate balance,
    otherwise the call is rejected (status 422, the rejection of an
    insufficient limit) and the state is the same. *)
Theorem debit_respects_limit (db0 : DB) (calls : list call) :
  withinLimit db0 ->
  let db := run db0 calls in
  withinLimit db /\
  forall (e : env) (r : request) (tr : transactionRequest) (id : Z) (c : customer),
    Body r = Some tr -> Type_ tr = "d" -> validBody r = true ->
    strconv.Atoi (PathID r) = Some id -> provisionedID id = true ->
    rowErr e = false ->
    customers db !! id = Some c ->
    let candidate := c_balance c - Value tr in
    (code (fst (handleTransactions e r db)) = StatusOK <-> - c_limit c <= candidate) /\
    (- c_limit c <= candidate ->
     fst (handleTransactions e r db) = mkReply StatusOK (Saldo (c_limit c) candidate) /\
     customers (snd (handleTransactions e r db)) !! id
     = Some (Customer (c_limit c) candidate)) /\
    (candidate < - c_limit c ->
     handleTransactions e r db = (mkReply StatusUnprocessableEntity EmptyObject, db)).
Proof.
  intros H0 db.
  assert (Hdb : withinLimit db) by now apply withinLimit_run.
  split; [exact Hdb|].
  intros e r tr id c Hb Hk Hv Hid Hp He Hc candidate.
  rewrite (handleTransactions_valid e r db Hv), Hb, Hid, Hp.
  rewrite (callStored_debit e id tr db c Hk He Hc). fold candidate.
  destruct (Z.leb_spec (- c_limit c) candidate) as [Hle | Hlt]; cbn [fst snd code].
  - split; [tauto|]. split; [|lia].
    intros _. split; [reflexivity|]. unfold posted. cbn [customers].
    rewrite lookup_insert_eq. reflexivity.
  - split; [|split; [lia | reflexivity]].
    unfold StatusUnprocessableEntity, StatusOK. split; [discriminate | lia].
Qed.

Lemma refDB_withinLimit : withinLimit refDB.
Proof.
  change (map_Forall (fun _ c => - c_limit c <= c_balance c) (customers refDB)).
  apply (bool_decide_unpack _). vm_compute. exact I.
Defined.

Lemma debit_respects_limit_witness :
  withinLimit (run refDB twelve) /\
  handleTransactions up (post "2" 150 "d" "x") (run refDB twelve)
  = (mkReply StatusUnprocessableEntity EmptyObject, run refDB twelve).
Proof.
  destruct (debit_respects_limit refDB twelve refDB_withinLimit) as [Hinv Hdebit].
  split; [exact Hinv|].
  destruct (Hdebit up (post "2" 150 "d" "x") (mkTransactionRequest 150 "d" "x") 2
              (Customer 100 0) eq_refl eq_refl eq_refl eq_refl eq_refl eq_refl eq_refl)
    as (_ & _ & Hreject).
  apply Hreject. cbn. lia.
Defined.

(** C3: an [apply] that is rejected, as not found (404) or as
    unprocessable (422: an invalid input or an insufficient limit),
    writes the empty object and leaves every balance and the transaction
    log exactly as they were. *)
Theorem rejected_apply_changes_nothing (e : env) (r : request) (db : DB) :
  code (fst (handleTransactions e r db)) <> StatusOK ->
  snd (handleTransactions e r db) = db /\
  customers (snd (handleTransactions e r db)) = customers db /\
  transactions (snd (handleTransactions e r db)) = transactions db /\
  (fst (handleTransactions e r db) = mkReply StatusNotFound EmptyObject \/
   fst (handleTransactions e r db) = mkReply StatusUnprocessableEntity EmptyObject).
Proof.
  intros Hcode. rewrite (rejected_unchanged e r db Hcode).
  repeat split; try reflexivity.
  destruct (validBody r) eqn:Hv.
  - rewrite (handleTransactions_valid e r db Hv) in Hcode |- *.
    destruct (Body r) as [tr|]; [|now left].
    destruct (strconv.Atoi (PathID r)) as [id|]; [|now left].
    destruct (provisionedID id); [|now left].
    destruct (callStored_inv e id tr db) as [Heq | (c & k & d & _ & _ & _ & Heq)];
      rewrite Heq in Hcode |- *; [now right | now contradiction Hcode].
  - rewrite (validBody_false r Hv). now right.
Qed.

Lemma rejected_apply_changes_nothing_witness :
  snd (handleTransactions up (post "2" 150 "d" "x") refDB) = refDB.
Proof.
  apply (rejected_apply_changes_nothing up (post "2" 150 "d" "x") refDB).
  vm_compute. discriminate.
Defined.

(** C4, the claim as stated does not hold: an unprovisioned account id
    with an amount of 0 is answered 422, not 404. *)
Lemma account_not_checked_first :
  ~ (forall e r db id,
       strconv.Atoi (PathID r) = Some id -> provisionedID id = false ->
       code (fst (handleTransactions e r db)) = StatusNotFound).
Proof.
  intros H. specialize (H up (post "6" 0 "d" "x") refDB 6 eq_refl eq_refl).
  vm_compute in H. discriminate H.
Qed.

(** C4, as amended: [apply] checks the body before the account id.  A
    body that does not decode, an amount below 1, a kind other than [c]
    and [d], a description of fewer than 1 or more than 10 code points:
    each is answered 422 whatever the account id is.  Only a call that
    passes all of these is answered 404 when its account id is not a
    provisioned one, and is never answered 404 when it is.  No rejection
    changes the state. *)
Theorem body_checked_before_account (e : env) (r : request) (db : DB) :
  (Body r = None ->
   handleTransactions e r db = (mkReply StatusUnprocessableEntity EmptyObject, db)) /\
  (forall tr, Body r = Some tr ->
     Value tr < 1 \/
     (Type_ tr <> "c" /\ Type_ tr <> "d") \/
     utf8.RuneCountInString (Descricao tr) < 1 \/
     10 < utf8.RuneCountInString (Descricao tr) ->
     handleTransactions e r db = (mkReply StatusUnprocessableEntity EmptyObject, db)) /\
  (forall tr, Body r = Some tr ->
     1 <= Value tr -> Type_ tr = "c" \/ Type_ tr = "d" ->
     1 <= utf8.RuneCountInString (Descricao tr) <= 10 ->
     (strconv.Atoi (PathID r) = None ->
      handleTransactions e r db = (mkReply StatusNotFound EmptyObject, db)) /\
     (forall id, strconv.Atoi (PathID r) = Some id ->
        if provisionedID id
        then handleTransactions e r db = callStored e id tr db /\
             code (fst (handleTransactions e r db)) <> StatusNotFound
        else handleTransactions e r db = (mkReply StatusNotFound EmptyObject, db))).
Proof.
  split; [|split].
  - intros Hb. apply validBody_false. unfold validBody. now rewrite Hb.
  - intros tr Hb Hbad. apply validBody_false. unfold validBody. rewrite Hb.
    destruct (String.eqb_spec (Type_ tr) "d"), (String.eqb_spec (Type_ tr) "c");
      cbn [orb andb]; lia || (destruct Hbad as [?|[[? ?]|?]]; try congruence; lia).
  - intros tr Hb Hv Hk Hd.
    assert (Hvalid : validBody r = true).
    { unfold validBody. rewrite Hb.
      destruct (String.eqb_spec (Type_ tr) "d"), (String.eqb_spec (Type_ tr) "c");
        cbn [orb andb]; try lia. destruct Hk; congruence. }
    rewrite (handleTransactions_valid e r db Hvalid), Hb. split.
    + now intros ->.
    + intros id ->. destruct (provisionedID id); [|reflexivity].
      split; [reflexivity|].
      destruct (callStored_code e id tr db) as [-> | ->]; discriminate.
Qed.

Lemma body_checked_before_account_witness :
  handleTransactions up (post "6" 0 "d" "x") refDB
  = (mkReply StatusUnprocessableEntity EmptyObject, refDB) /\
  handleTransactions up (post "6" 1 "d" "x") refDB
  = (mkReply StatusNotFound EmptyObject, refDB).
Proof.
  split.
  - apply (proj1 (proj2 (body_checked_before_account up (post "6" 0 "d" "x") refDB))
             (mkTransactionRequest 0 "d" "x") eq_refl).
    left. cbn. lia.
  - pose proof (proj2 (proj2 (body_checked_before_account up (post "6" 1 "d" "x") refDB))
                  (mkTransactionRequest 1 "d" "x") eq_refl) as H.
    cbn [Value Type_ Descricao] in H.
    assert (Hlen : 1 <= utf8.RuneCountInString "x" <= 10) by (vm_compute; split; discriminate).
    destruct (H ltac:(lia) (or_intror eq_refl) Hlen) as [_ H6].
    exact (H6 6 eq_refl).
Defined.

Lemma handleStatement_parsed e r db id :
  strconv.Atoi (PathID r) = Some id ->
  handleStatement e r db =
  if provisionedID id then
    if beginErr e then mkReply StatusInternalServerError EmptyObject
    else if queryErr e then mkReply StatusInternalServerError EmptyObject
    else
      let lb := if rowErr e then (0, 0)
                else match selectCustomer id db with Some lb => lb | None => (0, 0) end in
      mkReply StatusOK
        (Extrato (mkResponse (mkBalanceRes (snd lb) (now e) (fst lb))
                    (map scanTransaction
                       match nextErr e with
                       | Some n => firstn n (selectLastTransactions id db)
                       | None => selectLastTransactions id db
                       end)))
  else mkReply StatusNotFound EmptyObject.
Proof.
  intros Hid. unfold handleStatement, provisionedID. rewrite Hid.
  destruct (Z.ltb_spec id 1), (Z.gtb_spec id 5), (Z.leb_spec 1 id), (Z.leb_spec id 5);
    try lia; try reflexivity.
  cbn [orb andb]. destruct (beginErr e); [reflexivity|].
  destruct (rowErr e).
  - now destruct (queryErr e).
  - destruct (selectCustomer id db) as [[l b]|]; now destruct (queryErr e).
Qed.

(** C7, the claim as stated does not hold: with a kind that is neither
    [c] nor [d], an [apply] on the unprovisioned account 6 is answered
    422, not 404. *)
Lemma unprovisioned_apply_not_always_404 :
  ~ (forall e r db id,
       strconv.Atoi (PathID r) = Some id -> provisionedID id = false ->
       code (fst (handleTransactions e r db)) = StatusNotFound /\
       code (handleStatement e r db) = StatusNotFound).
Proof.
  intros H.
  destruct (H up (post "6" 10 "x" "dep") refDB 6 eq_refl eq_refl) as [H6 _].
  vm_compute in H6. discriminate H6.
Qed.

(** C7, as amended: for an account id outside 1..5, [snapshot] is
    answered 404, and [apply] is answered 404 whenever its amount, kind
    and description are valid (422 otherwise); for an account id inside
    1..5, neither [apply] nor [snapshot] is answered 404. *)
Theorem not_found_outside_provisioned (e : env) (r : request) (db : DB) (id : Z) :
  strconv.Atoi (PathID r) = Some id ->
  (provisionedID id = false ->
   handleStatement e r db = mkReply StatusNotFound EmptyObject /\
   handleTransactions e r db =
     (mkReply (if validBody r then StatusNotFound else StatusUnprocessableEntity)
        EmptyObject, db)) /\
  (provisionedID id = true ->
   code (handleStatement e r db) <> StatusNotFound /\
   code (fst (handleTransactions e r db)) <> StatusNotFound).
Proof.
  intros Hid. rewrite (handleStatement_parsed e r db id Hid). split; intros Hp; rewrite Hp.
  - split; [reflexivity|]. destruct (validBody r) eqn:Hv.
    + rewrite (handleTransactions_valid e r db Hv), Hid, Hp. now destruct (Body r).
    + apply (validBody_false r Hv).
  - split.
    + destruct (beginErr e); [discriminate|]. destruct (queryErr e); discriminate.
    + destruct (validBody r) eqn:Hv.
      * rewrite (handleTransactions_valid e r db Hv), Hid, Hp.
        destruct (validBody_true r Hv) as (tr & -> & _).
        destruct (callStored_code e id tr db) as [-> | ->]; discriminate.
      * rewrite (validBody_false r Hv). discriminate.
Qed.

Lemma not_found_outside_provisioned_witness :
  handleStatement up (post "6" 10 "c" "dep") refDB = mkReply StatusNotFound EmptyObject /\
  handleTransactions up (post "6" 10 "c" "dep") refDB
  = (mkReply StatusNotFound EmptyObject, refDB).
Proof.
  exact (proj1 (not_found_outside_provisioned up (post "6" 10 "c" "dep") refDB 6 eq_refl)
           eq_refl).
Defined.

(** C10, the claim as stated does not hold: with a body that does not
    decode, an [apply] whose account id is not a number is answered 422,
    not 404: the body is validated first. *)
Lemma unparsable_id_after_body :
  ~ (forall e r db,
       strconv.Atoi (PathID r) = None ->
       code (fst (handleTransactions e r db)) = StatusNotFound).
Proof.
  intros H. specialize (H up (mkRequest None "abc") refDB eq_refl).
  vm_compute in H. discriminate H.
Qed.

(** C10, as amended: when the account id of the path does not parse as
    a decimal integer, [snapshot] is answered 404 at once, and [apply] is
    answered 404 when its body is valid and 422 when it is not (the body
    is validated first); in all these cases the reply is the same
    whatever the store holds or whether it answers, and the state is not
    changed. *)
Theorem unparsable_id_not_found (e : env) (r : request) (db : DB) :
  strconv.Atoi (PathID r) = None ->
  handleStatement e r db = mkReply StatusNotFound EmptyObject /\
  handleTransactions e r db =
    (mkReply (if validBody r then StatusNotFound else StatusUnprocessableEntity)
       EmptyObject, db).
Proof.
  intros Hid. split.
  - unfold handleStatement. now rewrite Hid.
  - destruct (validBody r) eqn:Hv.
    + rewrite (handleTransactions_valid e r db Hv), Hid. now destruct (Body r).
    + apply (validBody_false r Hv).
Qed.

Lemma unparsable_id_not_found_witness :
  handleStatement up (post "abc" 10 "c" "dep") refDB = mkReply StatusNotFound EmptyObject /\
  handleTransactions up (post "abc" 10 "c" "dep") refDB
  = (mkReply StatusNotFound EmptyObject, refDB).
Proof.
  exact (unparsable_id_not_found up (post "abc" 10 "c" "dep") refDB eq_refl).
Defined.

(** C6: the length of the description is counted in code points, not in
    bytes.  For a body whose amount and kind are valid and whose
    description is the UTF-8 text of the code points [cps], the handler
    counts exactly [length cps]; with no code point or with more than 10
    the call is rejected with 422 and no change of state; with 1 to 10
    code points the description check is passed, and the handler goes on
    to the account id and to the store. *)
Theorem description_counted_in_code_points (e : env) (r : request) (db : DB)
    (tr : transactionRequest) (cps : list Z) :
  Body r = Some tr -> 1 <= Value tr -> Type_ tr = "c" \/ Type_ tr = "d" ->
  Descricao tr = utf8.encode cps ->
  utf8.RuneCountInString (Descricao tr) = Z.of_nat (length cps) /\
  ((length cps < 1 \/ 10 < length cps)%nat ->
   validBody r = false /\
   handleTransactions e r db = (mkReply StatusUnprocessableEntity EmptyObject, db)) /\
  ((1 <= length cps <= 10)%nat ->
   validBody r = true /\
   handleTransactions e r db =
     match strconv.Atoi (PathID r) with
     | Some id =>
         if provisionedID id then callStored e id tr db
         else (mkReply StatusNotFound EmptyObject, db)
     | None => (mkReply StatusNotFound EmptyObject, db)
     end).
Proof.
  intros Hb Hv Hk Hd.
  assert (Hlen : utf8.RuneCountInString (Descricao tr) = Z.of_nat (length cps))
    by (rewrite Hd; apply RuneCount_encode).
  assert (Hvalid : validBody r =
                   (1 <=? Z.of_nat (length cps)) && (Z.of_nat (length cps) <=? 10)).
  { unfold validBody. rewrite Hb, Hlen.
    destruct (Z.leb_spec 1 (Value tr)); [|lia].
    destruct Hk as [-> | ->]; reflexivity. }
  split; [exact Hlen|]. split; intros Hn.
  - assert (Hf : validBody r = false) by (rewrite Hvalid; lia).
    split; [exact Hf | apply (validBody_false r Hf)].
  - assert (Ht : validBody r = true) by (rewrite Hvalid; lia).
    split; [exact Ht|]. rewrite (handleTransactions_valid e r db Ht), Hb.
    reflexivity.
Qed.

(** ten code points of three bytes each are accepted, eleven of one byte
    each are not *)
Lemma description_counted_in_code_points_witness :
  String.length (utf8.encode (repeat 0x20AC 10)) = 30%nat /\
  fst (handleTransactions up (post "1" 10 "c" (utf8.encode (repeat 0x20AC 10))) refDB)
  = mkReply StatusOK (Saldo 1000 10) /\
  handleTransactions up (post "1" 10 "c" (utf8.encode (repeat 0x61 11))) refDB
  = (mkReply StatusUnprocessableEntity EmptyObject, refDB) /\
  handleTransactions up (post "1" 10 "c" (utf8.encode [])) refDB
  = (mkReply StatusUnprocessableEntity EmptyObject, refDB).
Proof.
  split; [reflexivity|].
  pose proof (fun d cps => description_counted_in_code_points up (post "1" 10 "c" d) refDB
                (mkTransactionRequest 10 "c" d) cps eq_refl ltac:(cbn; lia)
                (or_introl eq_refl)) as H.
  split; [|split].
  - destruct (H _ (repeat 0x20AC 10) eq_refl) as (_ & _ & Hin).
    destruct Hin as [_ ->]; [cbn; lia | reflexivity].
  - destruct (H _ (repeat 0x61 11) eq_refl) as (_ & Hout & _).
    apply Hout. cbn. lia.
  - destruct (H _ [] eq_refl) as (_ & Hout & _).
    apply Hout. cbn. lia.
Defined.




Lemma connect_attempts p i n : (attempts (snd (connect p i n)) <= n)%nat.
Proof.
  revert i. induction n as [|n IH]; intros i; cbn [connect]; [cbn; lia|].
  destruct (p i); [|cbn; lia].
  specialize (IH (S i)). destruct (connect p (S i) n) as [db out].
  unfold attempts in *. cbn in *. lia.
Qed.

(** C9: the connection loop calls [pgxpool.New] at most 10 times,
    whatever the calls return; but when all 10 calls fail, [main] reports
    nothing: it prints "Connected to DB" and goes on with the nil pool. *)
Theorem exhausted_retries_go_on :
  (forall b : boot, (attempts (fst (main b)) <= 10)%nat) /\
  main (mkBoot false (fun _ => true)) =
    ((Println "Starting..."
      :: flat_map (fun i => [NewPool i;
                             Println "Failed to connect to DB, retrying in 5 seconds";
                             Sleep 5]) (seq 0 10)
      ++ [Println "Connected to DB"])%list,
     NilPool).
Proof.
  split; [|reflexivity].
  intros b. unfold main. destruct (locationErr b); [cbn; lia|].
  pose proof (connect_attempts (poolErr b) 0 10) as Hn.
  destruct (connect (poolErr b) 0 10) as [db out]. cbn [snd] in Hn.
  assert (Happ : forall l1 l2, attempts (l1 ++ l2) = (attempts l1 + attempts l2)%nat).
  { intros l1 l2. unfold attempts. now rewrite List.filter_app, length_app. }
  destruct db as [pool|]; cbn [fst].
  - change (Println "Starting..." :: out ++ [Println "Connected to DB"])%list
      with ([Println "Starting..."] ++ out ++ [Println "Connected to DB"])%list.
    rewrite !Happ. cbn. lia.
  - change (Println "Starting..." :: out ++ [Println "Connected to DB"])%list
      with ([Println "Starting..."] ++ out ++ [Println "Connected to DB"])%list.
    rewrite !Happ. cbn. lia.
Qed.

(** *** Histories that start from the provisioned state *)

Section FromProvisioning.

Variable db0 : DB.
Hypothesis fresh : transactions db0 = [].

Lemma balanced_start : balanced db0 db0.
Proof.
  intros id. rewrite fresh. cbn.
  destruct (customers db0 !! id) as [[l b]|]; cbn; [|reflexivity].
  do 2 f_equal. lia.
Qed.

Lemma sequenced_start : sequenced db0.
Proof. intros id. rewrite fresh. constructor. Qed.

Lemma balanced_run calls : balanced db0 (run db0 calls).
Proof.
  apply (run_invariant (balanced db0)); [|exact balanced_start].
  intros e r db. apply balanced_step.
Qed.

Lemma sequenced_run calls : sequenced (run db0 calls).
Proof.
  apply (run_invariant sequenced); [|exact sequenced_start].
  intros e r db. apply sequenced_step.
Qed.

End FromProvisioning.

Lemma ascending_app_lt l1 l2 t u :
  ascending (l1 ++ l2) -> In t l1 -> In u l2 -> t_id t < t_id u.
Proof.
  unfold ascending. induction l1 as [|a l1 IH]; cbn; [tauto|].
  intros Hs [-> | Ht] Hu; inversion Hs as [|? ? Hs' Ha]; subst.
  - rewrite List.Forall_forall in Ha. apply Ha, in_or_app. now right.
  - now apply IH.
Qed.

(** C5: after any history of calls from the provisioned state, the
    statement of a provisioned account (the store answering) lists the
    last 10 entries of the account's log, or all of them when there are
    at most 10, the latest first: sequence numbers fall strictly along
    the list, and every entry left out has a smaller sequence number
    than every entry listed.  The balance returned is the provisioned
    balance plus the effects of all entries of the log, listed or not. *)
Theorem statement_lists_latest_ten (db0 : DB) (calls : list call) (e : env)
    (r : request) (id : Z) (c0 : customer) :
  transactions db0 = [] -> customers db0 !! id = Some c0 ->
  strconv.Atoi (PathID r) = Some id -> provisionedID id = true ->
  beginErr e = false -> rowErr e = false -> queryErr e = false -> nextErr e = None ->
  let db := run db0 calls in
  let log := rowsOf id (transactions db) in
  let rows := rev (skipn (length log - 10) log) in
  handleStatement e r db =
    mkReply StatusOK
      (Extrato (mkResponse
                  (mkBalanceRes (c_balance c0 + sumEffects log) (now e) (c_limit c0))
                  (map scanTransaction rows))) /\
  ascending log /\
  descending rows /\
  length rows = Nat.min 10 (length log) /\
  ((length log <= 10)%nat -> rows = rev log) /\
  (forall t u, In t log -> ~ In t rows -> In u rows -> t_id t < t_id u).
Proof.
  intros Hlog Hc0 Hid Hp Hbe Hre Hqe Hne db log rows.
  pose proof (sequenced_run db0 Hlog calls) as Hseq. fold db in Hseq.
  pose proof (balanced_run db0 Hlog calls id) as Hbal. fold db in Hbal.
  rewrite Hc0 in Hbal. cbn in Hbal. fold log in Hbal.
  destruct (selectLastTransactions_sequenced id db Hseq) as [Hsel Hdesc].
  fold log in Hsel. fold rows in Hsel. rewrite Hsel in Hdesc.
  split; [|split; [apply Hseq | split; [exact Hdesc | split; [|split]]]].
  - rewrite (handleStatement_parsed e r db id Hid), Hp, Hbe, Hre, Hqe, Hne.
    unfold selectCustomer. rewrite Hbal, Hsel. reflexivity.
  - unfold rows. rewrite length_rev, length_skipn. lia.
  - intros Hle. unfold rows.
    replace (length log - 10)%nat with 0%nat by lia. reflexivity.
  - intros t u Ht Hnt Hu. unfold rows in Hnt, Hu.
    rewrite <- in_rev in Hnt, Hu.
    apply (ascending_app_lt (firstn (length log - 10) log) (skipn (length log - 10) log));
      [rewrite firstn_skipn; apply Hseq | | exact Hu].
    rewrite <- (firstn_skipn (length log - 10) log) in Ht.
    apply in_app_or in Ht. tauto.
Qed.

Lemma statement_lists_latest_ten_witness :
  handleStatement up (mkRequest None "1") (run refDB twelve) =
    mkReply StatusOK
      (Extrato (mkResponse (mkBalanceRes 78 0 1000)
                  (map (fun n => mkTransactionRes n "c" "dep" n)
                     [12; 11; 10; 9; 8; 7; 6; 5; 4; 3]))).
Proof.
  exact (proj1 (statement_lists_latest_ten refDB twelve up (mkRequest None "1") 1
                  (Customer 1000 0) eq_refl eq_refl eq_refl eq_refl eq_refl eq_refl eq_refl eq_refl)).
Defined.

(** ** What [snapshot] does not report

    Two failures of the store leave no trace in the reply of
    [handleStatement]: the error of the [Scan] of the customer row, and an
    error that ends the iteration over the rows. *)

Example statement_drops_row_error :
  handleStatement (mkEnv 0 false true false None) (mkRequest None "1") (run refDB twelve)
  = mkReply StatusOK
      (Extrato (mkResponse (mkBalanceRes 0 0 0)
                  (map (fun n => mkTransactionRes n "c" "dep" n)
                     [12; 11; 10; 9; 8; 7; 6; 5; 4; 3]))).
Proof. reflexivity. Qed.

Example statement_drops_iteration_error :
  handleStatement (mkEnv 0 false false false (Some 2%nat)) (mkRequest None "1")
    (run refDB twelve)
  = mkReply StatusOK
      (Extrato (mkResponse (mkBalanceRes 78 0 1000)
                  (map (fun n => mkTransactionRes n "c" "dep" n) [12; 11]))).
Proof. reflexivity. Qed.

(** * Further properties of the code *)

(** ** Account ids in the path *)

Lemma digits_decimal ds : forall n v,
  strconv.digits n ds = Some v <->
  Forall isDigit ds /\ v = fold_left (fun n ch => n * 10 + (ch - 0x30)) ds n.
Proof.
  induction ds as [|ch ds IH]; intros n v; cbn [strconv.digits fold_left].
  - split; [intros [= <-]; split; [constructor | reflexivity] | intros [_ ->]; reflexivity].
  - destruct (Z.leb_spec 0x30 ch) as [Hlo|Hlo];
      [destruct (Z.leb_spec ch 0x39) as [Hhi|Hhi]|]; cbn [andb].
    + rewrite IH. split; intros [Hd Hv]; (split; [|exact Hv]).
      * constructor; [split; assumption | exact Hd].
      * now inversion Hd.
    + split; [discriminate|]. intros [Hd _]. inversion Hd as [|? ? [_ Hc] _]. lia.
    + split; [discriminate|]. intros [Hd _]. inversion Hd as [|? ? [Hc _] _]. lia.
Qed.

Lemma decimal_nonneg ds n :
  Forall isDigit ds -> 0 <= n -> 0 <= fold_left (fun n ch => n * 10 + (ch - 0x30)) ds n.
Proof.
  intros Hd. revert n. induction Hd as [|ch ds [Hlo Hhi] _ IH]; intros n Hn; cbn [fold_left].
  - exact Hn.
  - apply IH. lia.
Qed.

(** what [strconv.Atoi] accepts: an optional sign, then one or more
    decimal digits that write a number of the range of [int] *)
Lemma Atoi_Some s v :
  strconv.Atoi s = Some v <->
  exists sign ds,
    bytes s = (sign ++ ds)%list /\
    (sign = [] \/ sign = [0x2B] \/ sign = [0x2D]) /\
    ds <> [] /\ Forall isDigit ds /\
    v = (if decide (sign = [0x2D]) then - decimal ds else decimal ds) /\
    strconv.minInt <= v <= strconv.maxInt.
Proof.
  unfold strconv.Atoi, decimal. split.
  - destruct (bytes s) as [|c rest] eqn:Hs; [discriminate|].
    destruct (Z.eqb_spec c 0x2D) as [-> | Hm];
      [|destruct (Z.eqb_spec c 0x2B) as [-> | Hp]]; cbn [orb].
    + destruct rest as [|d rest]; [discriminate|].
      destruct (strconv.digits 0 (d :: rest)) as [n|] eqn:Hn; [|discriminate].
      apply digits_decimal in Hn as [Hd ->].
      destruct (_ && _) eqn:Hr; [|discriminate]. intros [= <-].
      apply andb_true_iff in Hr as [H1%Z.leb_le H2%Z.leb_le].
      exists [0x2D], (d :: rest).
      split; [reflexivity|]. split; [tauto|]. split; [discriminate|].
      split; [exact Hd|]. rewrite decide_True by reflexivity. split; [reflexivity | split; assumption].
    + destruct rest as [|d rest]; [discriminate|].
      destruct (strconv.digits 0 (d :: rest)) as [n|] eqn:Hn; [|discriminate].
      apply digits_decimal in Hn as [Hd ->].
      destruct (_ && _) eqn:Hr; [|discriminate]. intros [= <-].
      apply andb_true_iff in Hr as [H1%Z.leb_le H2%Z.leb_le].
      exists [0x2B], (d :: rest).
      split; [reflexivity|]. split; [tauto|]. split; [discriminate|].
      split; [exact Hd|]. rewrite decide_False by discriminate. split; [reflexivity | split; assumption].
    + destruct (strconv.digits 0 (c :: rest)) as [n|] eqn:Hn; [|discriminate].
      apply digits_decimal in Hn as [Hd ->].
      destruct (_ && _) eqn:Hr; [|discriminate]. intros [= <-].
      apply andb_true_iff in Hr as [H1%Z.leb_le H2%Z.leb_le].
      exists [], (c :: rest).
      split; [reflexivity|]. split; [tauto|]. split; [discriminate|].
      split; [exact Hd|]. rewrite decide_False by discriminate. split; [reflexivity | split; assumption].
  - intros (sign & ds & -> & Hsign & Hne & Hd & -> & Hr).
    destruct ds as [|d ds]; [congruence|].
    assert (Hdig : strconv.digits 0 (d :: ds)
                   = Some (fold_left (fun n ch => n * 10 + (ch - 0x30)) (d :: ds) 0))
      by now apply digits_decimal.
    assert (Hd0 : 0x30 <= d <= 0x39) by now inversion Hd.
    destruct Hsign as [-> | [-> | ->]]; cbn [app].
    + destruct (Z.eqb_spec d 0x2D); [lia|]. destruct (Z.eqb_spec d 0x2B); [lia|].
      cbn [orb]. rewrite Hdig. rewrite decide_False in Hr |- * by discriminate.
      destruct (_ && _) eqn:Hb; [reflexivity | lia].
    + cbn [Z.eqb Pos.eqb orb]. rewrite Hdig.
      rewrite decide_False in Hr |- * by discriminate.
      destruct (_ && _) eqn:Hb; [reflexivity | lia].
    + cbn [Z.eqb Pos.eqb orb]. rewrite Hdig.
      rewrite decide_True in Hr |- * by reflexivity.
      destruct (_ && _) eqn:Hb; [reflexivity | lia].
Qed.

Lemma handleStatement_parsed' e r db id :
  strconv.Atoi (PathID r) = Some id ->
  code (handleStatement e r db) <> StatusNotFound <-> provisionedID id = true.
Proof.
  intros Hid. rewrite (handleStatement_parsed e r db id Hid).
  destruct (provisionedID id); [|split; [intros H; now contradiction H | discriminate]].
  split; [reflexivity|]. intros _.
  destruct (beginErr e); [discriminate|]. destruct (queryErr e); discriminate.
Qed.

Lemma handleTransactions_parsed' e r db id :
  validBody r = true -> strconv.Atoi (PathID r) = Some id ->
  code (fst (handleTransactions e r db)) <> StatusNotFound <-> provisionedID id = true.
Proof.
  intros Hv Hid. rewrite (handleTransactions_valid e r db Hv), Hid.
  destruct (validBody_true r Hv) as (tr & -> & _).
  destruct (provisionedID id); [|split; [intros H; now contradiction H | discriminate]].
  split; [reflexivity|]. intros _.
  destruct (callStored_code e id tr db) as [-> | ->]; discriminate.
Qed.

Lemma servedID_Atoi s :
  servedID s <-> exists id, strconv.Atoi s = Some id /\ provisionedID id = true.
Proof.
  unfold servedID, provisionedID. split.
  - intros (sign & ds & Hs & Hsign & Hne & Hd & Hr). exists (decimal ds). split; [|lia].
    apply Atoi_Some. exists sign, ds.
    assert (Hdec : (if decide (sign = [0x2D]) then - decimal ds else decimal ds) = decimal ds)
      by (destruct Hsign as [-> | ->]; now rewrite decide_False by discriminate).
    rewrite Hdec. unfold strconv.minInt, strconv.maxInt.
    repeat split; auto; try lia. tauto.
  - intros (id & (sign & ds & Hs & Hsign & Hne & Hd & Hv & _)%Atoi_Some & Hp).
    pose proof (decimal_nonneg ds 0 Hd ltac:(lia)) as H0. fold (decimal ds) in H0.
    exists sign, ds. destruct Hsign as [-> | [-> | ->]].
    + rewrite decide_False in Hv by discriminate. repeat split; auto; lia.
    + rewrite decide_False in Hv by discriminate. repeat split; auto; lia.
    + rewrite decide_True in Hv by reflexivity. lia.
Qed.

(** X1: both handlers answer 404 for every path id except an optional
    [+] followed by decimal digits that write a number from 1 to 5
    ([apply] when its body is valid). *)
Theorem served_path_ids (e : env) (r : request) (db : DB) :
  (code (handleStatement e r db) <> StatusNotFound <-> servedID (PathID r)) /\
  (validBody r = true ->
   (code (fst (handleTransactions e r db)) <> StatusNotFound <-> servedID (PathID r))).
Proof.
  rewrite servedID_Atoi. split; [|intros Hv].
  - destruct (strconv.Atoi (PathID r)) as [id|] eqn:Hid.
    + rewrite (handleStatement_parsed' e r db id Hid). split; [eauto|].
      now intros (? & [= <-] & ?).
    + unfold handleStatement. rewrite Hid. split; [intros H; now contradiction H|].
      now intros (? & [=] & _).
  - destruct (strconv.Atoi (PathID r)) as [id|] eqn:Hid.
    + rewrite (handleTransactions_parsed' e r db id Hv Hid). split; [eauto|].
      now intros (? & [= <-] & ?).
    + rewrite (handleTransactions_valid e r db Hv), Hid.
      destruct (Body r); (split; [intros H; now contradiction H|]);
        now intros (? & [=] & _).
Qed.

Lemma served_path_ids_witness :
  code (handleStatement up (mkRequest None "+03") refDB) <> StatusNotFound.
Proof.
  apply (proj1 (served_path_ids up (mkRequest None "+03") refDB)).
  exists [0x2B], [0x30; 0x33]. unfold isDigit.
  repeat split; auto; try discriminate; try (repeat constructor; lia); cbn; lia.
Defined.

Lemma Atoi_prefix (a : ascii) s c rest :
  a = "0"%char \/ a = "+"%char ->
  bytes s = c :: rest -> isDigit c ->
  strconv.Atoi (String a s) = strconv.Atoi s.
Proof.
  intros Ha Hs [Hlo Hhi]. unfold strconv.Atoi.
  change (bytes (String a s)) with (byteOfAscii a :: bytes s). rewrite Hs.
  destruct (Z.eqb_spec c 0x2D); [lia|]. destruct (Z.eqb_spec c 0x2B); [lia|].
  destruct Ha as [-> | ->]; reflexivity.
Qed.

(** X2: an account id may be written with leading zeros and with a
    [+]: when the path id begins with a digit, both handlers answer the
    same for the id with a [0] or a [+] put in front. *)
Theorem account_id_spellings (e : env) (r : request) (db : DB) (c : Z) (rest : list Z) :
  bytes (PathID r) = c :: rest -> isDigit c ->
  forall a : ascii, a = "0"%char \/ a = "+"%char ->
    let r' := mkRequest (Body r) (String a (PathID r)) in
    handleTransactions e r' db = handleTransactions e r db /\
    handleStatement e r' db = handleStatement e r db.
Proof.
  intros Hs Hc a Ha r'.
  pose proof (Atoi_prefix a (PathID r) c rest Ha Hs Hc) as HA.
  unfold handleTransactions, handleStatement. subst r'. cbn [Body PathID].
  rewrite HA. split; reflexivity.
Qed.

Lemma account_id_spellings_witness :
  handleStatement up (mkRequest None "001") refDB
  = handleStatement up (mkRequest None "01") refDB.
Proof.
  exact (proj2 (account_id_spellings up (mkRequest None "01") refDB 0x30 [0x31]
                  eq_refl ltac:(unfold isDigit; lia) "0"%char (or_introl eq_refl))).
Defined.

(** ** The length of a description, in runes and in bytes *)

Lemma first_size c :
  128 <= c -> utf8.first c <> utf8.xx ->
  (2 <= Z.to_nat (Z.land (utf8.first c) 7) <= 4)%nat.
Proof.
  unfold utf8.first. intros Hc.
  repeat match goal with
         | |- context [?a <? ?b] => destruct (Z.ltb_spec a b)
         | |- context [?a =? ?b] => destruct (Z.eqb_spec a b)
         end; try lia; intros Hx; try (now contradiction Hx); vm_compute; lia.
Qed.

Lemma advance_bounds c rest :
  (1 <= utf8.advance c rest <= 4)%nat /\ (utf8.advance c rest <= S (length rest))%nat.
Proof.
  unfold utf8.advance.
  destruct (Z.ltb_spec c utf8.RuneSelf) as [|Hc]; [lia|].
  destruct (Z.eqb_spec (utf8.first c) utf8.xx) as [|Hx]; [lia|].
  pose proof (first_size c Hc Hx) as Hsize.
  destruct (Nat.ltb_spec (S (length rest)) (Z.to_nat (Z.land (utf8.first c) 7))); [lia|].
  repeat match goal with
         | |- context [if ?b then _ else _] => destruct b
         end; lia.
Qed.

Lemma countFrom_bounds s : forall skip,
  (skip <= length s)%nat ->
  0 <= utf8.countFrom skip s /\
  utf8.countFrom skip s + Z.of_nat skip <= Z.of_nat (length s) /\
  Z.of_nat (length s) <= Z.of_nat skip + 4 * utf8.countFrom skip s.
Proof.
  induction s as [|c rest IH]; intros skip Hskip; cbn [utf8.countFrom length] in *.
  - assert (skip = 0%nat) as -> by lia. cbn. lia.
  - destruct skip as [|k].
    + destruct (advance_bounds c rest) as [Ha Hr].
      specialize (IH (utf8.advance c rest - 1)%nat ltac:(lia)). lia.
    + specialize (IH k ltac:(lia)). lia.
Qed.

Lemma length_bytes s : length (bytes s) = String.length s.
Proof.
  unfold bytes. rewrite length_map.
  induction s as [|a s IH]; cbn; [reflexivity | now rewrite IH].
Qed.

Lemma RuneCount_bounds s :
  0 <= utf8.RuneCountInString s <= Z.of_nat (String.length s) /\
  Z.of_nat (String.length s) <= 4 * utf8.RuneCountInString s.
Proof.
  unfold utf8.RuneCountInString. rewrite <- length_bytes.
  pose proof (countFrom_bounds (bytes s) 0%nat ltac:(lia)). lia.
Qed.

(** X3: the rune count of a description is at most its number of bytes
    and at least a quarter of it.  So whatever the bytes are, an empty
    description and one of more than 40 bytes are answered 422 with no
    change of state, and one of 1 to 10 bytes passes the check of the
    description. *)
Theorem description_byte_bounds (e : env) (r : request) (db : DB)
    (tr : transactionRequest) :
  Body r = Some tr ->
  let n := Z.of_nat (String.length (Descricao tr)) in
  (0 <= utf8.RuneCountInString (Descricao tr) <= n /\
   n <= 4 * utf8.RuneCountInString (Descricao tr)) /\
  (n = 0 \/ 40 < n ->
   handleTransactions e r db = (mkReply StatusUnprocessableEntity EmptyObject, db)) /\
  (1 <= n <= 10 -> 1 <= Value tr -> Type_ tr = "c" \/ Type_ tr = "d" ->
   validBody r = true).
Proof.
  intros Hb n. pose proof (RuneCount_bounds (Descricao tr)) as Hrc. fold n in Hrc.
  split; [exact Hrc|]. split.
  - intros Hn. apply validBody_false. unfold validBody. rewrite Hb.
    destruct (Z.leb_spec 1 (utf8.RuneCountInString (Descricao tr)));
      destruct (Z.leb_spec (utf8.RuneCountInString (Descricao tr)) 10);
      rewrite ?andb_false_r; try reflexivity. lia.
  - intros Hn Hv Hk. unfold validBody. rewrite Hb.
    destruct (Z.leb_spec 1 (Value tr)); [|lia].
    destruct (Z.leb_spec 1 (utf8.RuneCountInString (Descricao tr))); [|lia].
    destruct (Z.leb_spec (utf8.RuneCountInString (Descricao tr)) 10); [|lia].
    destruct Hk as [-> | ->]; reflexivity.
Qed.

Lemma description_byte_bounds_witness :
  handleTransactions up
    (post "1" 10 "c" "a description of more than forty bytes...") refDB
  = (mkReply StatusUnprocessableEntity EmptyObject, refDB).
Proof.
  apply (proj1 (proj2 (description_byte_bounds up
           (post "1" 10 "c" "a description of more than forty bytes...") refDB
           (mkTransactionRequest 10 "c" "a description of more than forty bytes...")
           eq_refl))).
  right. cbn. lia.
Defined.

Lemma countFrom_ascii s :
  Forall (fun b => b < 128) s -> utf8.countFrom 0 s = Z.of_nat (length s).
Proof.
  induction 1 as [|c rest Hc _ IH]; [reflexivity|].
  cbn [utf8.countFrom length]. rewrite (advance_ascii c rest Hc).
  cbn [Nat.sub]. rewrite IH. lia.
Qed.

(** X4: on a description made of ASCII bytes only the count is the
    number of bytes, so such a description (the amount and the kind being
    valid) passes the checks of the body exactly when it has 1 to 10
    characters. *)
Theorem ascii_description (r : request) (tr : transactionRequest) :
  Body r = Some tr -> 1 <= Value tr -> Type_ tr = "c" \/ Type_ tr = "d" ->
  Forall (fun b => b < 128) (bytes (Descricao tr)) ->
  utf8.RuneCountInString (Descricao tr) = Z.of_nat (String.length (Descricao tr)) /\
  (validBody r = true <-> (1 <= String.length (Descricao tr) <= 10)%nat).
Proof.
  intros Hb Hv Hk Ha.
  assert (Hrc : utf8.RuneCountInString (Descricao tr)
                = Z.of_nat (String.length (Descricao tr))).
  { unfold utf8.RuneCountInString. rewrite (countFrom_ascii _ Ha). now rewrite length_bytes. }
  split; [exact Hrc|]. unfold validBody. rewrite Hb, Hrc.
  destruct (Z.leb_spec 1 (Value tr)); [|lia].
  assert (Hkind : (Type_ tr =? "d")%string || (Type_ tr =? "c")%string = true)
    by (destruct Hk as [-> | ->]; reflexivity).
  rewrite Hkind. cbn [andb]. rewrite andb_true_iff, !Z.leb_le. lia.
Qed.

Lemma ascii_description_witness :
  validBody (post "1" 10 "c" "0123456789") = true /\
  validBody (post "1" 10 "c" "0123456789a") = false.
Proof.
  split.
  - apply (proj2 (ascii_description (post "1" 10 "c" "0123456789")
                    (mkTransactionRequest 10 "c" "0123456789") eq_refl ltac:(cbn; lia)
                    (or_introl eq_refl) ltac:(cbn; repeat constructor))).
    cbn. lia.
  - destruct (validBody (post "1" 10 "c" "0123456789a")) eqn:Hv; [|reflexivity].
    apply (proj2 (ascii_description (post "1" 10 "c" "0123456789a")
                    (mkTransactionRequest 10 "c" "0123456789a") eq_refl ltac:(cbn; lia)
                    (or_introl eq_refl) ltac:(cbn; repeat constructor))) in Hv.
    cbn in Hv. lia.
Defined.

(** ** What the handlers can answer *)

(** X5: [apply] answers 200 with the limit and the balance, or 404 or
    422 with the empty object, never 500; [snapshot] answers 200 with a
    statement, or 404 or 500 with the empty object, never 422. *)
Theorem replies_of_the_handlers (e : env) (r : request) (db : DB) :
  ((exists limite saldo,
      fst (handleTransactions e r db) = mkReply StatusOK (Saldo limite saldo)) \/
   fst (handleTransactions e r db) = mkReply StatusNotFound EmptyObject \/
   fst (handleTransactions e r db) = mkReply StatusUnprocessableEntity EmptyObject) /\
  ((exists resp, handleStatement e r db = mkReply StatusOK (Extrato resp)) \/
   handleStatement e r db = mkReply StatusNotFound EmptyObject \/
   handleStatement e r db = mkReply StatusInternalServerError EmptyObject).
Proof.
  split.
  - destruct (handleTransactions_inv e r db)
      as [[_ Hc] | (tr & id & c & k & d & _ & _ & _ & _ & _ & ->)]; [|left; eauto].
    right. destruct (validBody r) eqn:Hv.
    + rewrite (handleTransactions_valid e r db Hv) in Hc |- *.
      destruct (Body r) as [tr|]; [|now left].
      destruct (strconv.Atoi (PathID r)) as [id|]; [|now left].
      destruct (provisionedID id); [|now left].
      destruct (callStored_inv e id tr db) as [-> | (c & k & d & _ & _ & _ & Heq)];
        [now right|].
      rewrite Heq in Hc. destruct Hc as [Hc | Hc]; discriminate Hc.
    + rewrite (validBody_false r Hv). now right.
  - destruct (strconv.Atoi (PathID r)) as [id|] eqn:Hid.
    + rewrite (handleStatement_parsed e r db id Hid).
      destruct (provisionedID id); [|now right; left].
      destruct (beginErr e); [now right; right|].
      destruct (queryErr e); [now right; right|]. left; eauto.
    + unfold handleStatement. rewrite Hid. now right; left.
Qed.

(** ** The statement query on any table *)










(** ** The start-up, turn by turn *)

Lemma connect_spec p n : forall i,
  match fst (connect p i n) with
  | Some k =>
      (i <= k < i + n)%nat /\ p k = false /\
      (forall j, (i <= j < k)%nat -> p j = true) /\
      snd (connect p i n) = (flat_map failedTurn (seq i (k - i)) ++ [NewPool k])%list
  | None =>
      (forall j, (i <= j < i + n)%nat -> p j = true) /\
      snd (connect p i n) = flat_map failedTurn (seq i n)
  end.
Proof.
  induction n as [|n IH]; intros i; cbn [connect].
  - cbn. split; [lia | reflexivity].
  - destruct (p i) eqn:Hi.
    + specialize (IH (S i)). destruct (connect p (S i) n) as [[k|] out]; cbn [fst snd] in *.
      * destruct IH as (Hk & Hpk & Hbefore & ->).
        split; [lia|]. split; [exact Hpk|]. split.
        -- intros j Hj. destruct (decide (j = i)) as [-> | Hne]; [exact Hi|].
           apply Hbefore. lia.
        -- replace (k - i)%nat with (S (k - S i)) by lia. reflexivity.
      * destruct IH as (Hall & ->). split; [|reflexivity].
        intros j Hj. destruct (decide (j = i)) as [-> | Hne]; [exact Hi|].
        apply Hall. lia.
    + cbn [fst snd]. split; [lia|]. split; [exact Hi|]. split; [lia|].
      now rewrite Nat.sub_diag.
Qed.

Lemma attempts_app l1 l2 : attempts (l1 ++ l2) = (attempts l1 + attempts l2)%nat.
Proof. unfold attempts. now rewrite List.filter_app, length_app. Qed.

Lemma slept_app l1 l2 : slept (l1 ++ l2) = slept l1 + slept l2.
Proof.
  unfold slept. induction l1 as [|ev l1 IH]; cbn [app fold_right]; [lia|].
  destruct ev; lia.
Qed.

Lemma failedTurns i n :
  attempts (flat_map failedTurn (seq i n)) = n /\
  slept (flat_map failedTurn (seq i n)) = 5 * Z.of_nat n.
Proof.
  revert i. induction n as [|n IH]; intros i; [split; reflexivity|].
  cbn [seq flat_map]. rewrite attempts_app, slept_app.
  destruct (IH (S i)) as [-> ->]. cbn. split; lia.
Qed.



(** X8: the start-up sleeps 5 seconds after each failed call of
    [pgxpool.New] and never more than 50 seconds in all; it calls
    [pgxpool.New] once more than it sleeps when it gets a pool. *)
Theorem startup_sleeps (b : boot) :
  0 <= slept (fst (main b)) <= 50 /\
  slept (fst (main b)) =
    match snd (main b) with
    | Returned => 0
    | Serving k => 5 * Z.of_nat k
    | NilPool => 50
    end /\
  attempts (fst (main b)) =
    match snd (main b) with
    | Returned => 0%nat
    | Serving k => S k
    | NilPool => 10%nat
    end.
Proof.
  unfold main. destruct (locationErr b); [cbn; lia|].
  pose proof (connect_spec (poolErr b) 10 0) as H.
  destruct (connect (poolErr b) 0 10) as [[k|] out]; cbn [fst snd] in *.
  - destruct H as (Hk & _ & _ & ->). rewrite Nat.sub_0_r.
    change (Println "Starting..." :: ?l)%list with ([Println "Starting..."] ++ l)%list.
    rewrite !slept_app, !attempts_app.
    destruct (failedTurns 0 k) as [-> ->]. cbn. lia.
  - destruct H as (_ & ->).
    change (Println "Starting..." :: ?l)%list with ([Println "Starting..."] ++ l)%list.
    rewrite !slept_app, !attempts_app.
    destruct (failedTurns 0 10) as [-> ->]. cbn. lia.
Qed.

(** ** The metrics *)

Lemma handleTransactionsMetrics_recorded (start : Z) (method : string) (finished : Z)
    (e : env) (r : request) (db : DB) (m : metrics) :
  fst (handleTransactionsMetrics start method finished e r db m)
  = handleTransactions e r db /\
  exists label,
    strconv.Atoi label = Some (code (fst (handleTransactions e r db))) /\
    snd (handleTransactionsMetrics start method finished e r db m)
    = recorded label method " /clientes/{id}/transacoes" (finished - start) m.
Proof.
  unfold handleTransactionsMetrics, handleTransactions, callStored, recorded.
  destruct (Body r) as [tr|]; [|split; [reflexivity | now exists "422"]].
  destruct (Value tr <? 1); [split; [reflexivity | now exists "422"]|].
  destruct (negb (Type_ tr =? "d")%string && negb (Type_ tr =? "c")%string);
    [split; [reflexivity | now exists "422"]|].
  destruct ((utf8.RuneCountInString (Descricao tr) <? 1)
            || (utf8.RuneCountInString (Descricao tr) >? 10));
    [split; [reflexivity | now exists "422"]|].
  destruct (strconv.Atoi (PathID r)) as [id|]; [|split; [reflexivity | now exists "404"]].
  destruct ((id <? 1) || (id >? 5)); [split; [reflexivity | now exists "404"]|].
  destruct (if (Type_ tr =? "c")%string
            then queryRowScan credit e id (Value tr) (Descricao tr) db
            else queryRowScan debit e id (Value tr) (Descricao tr) db)
    as [[[[newBalance success] limit]|] db'];
    [|split; [reflexivity | now exists "422"]].
  destruct success; cbn [negb];
    [split; [reflexivity | now exists "200"] | split; [reflexivity | now exists "422"]].
Qed.

Lemma handleStatementMetrics_recorded (method : string) (arrived finished : Z)
    (e : env) (r : request) (db : DB) (m : metrics) :
  fst (handleStatementMetrics method arrived finished e r db m) = handleStatement e r db /\
  exists label,
    strconv.Atoi label = Some (code (handleStatement e r db)) /\
    snd (handleStatementMetrics method arrived finished e r db m)
    = recorded label method " /clientes/{id}/extrato" (finished - arrived) m.
Proof.
  unfold handleStatementMetrics, handleStatement, recorded.
  destruct (strconv.Atoi (PathID r)) as [id|]; [|split; [reflexivity | now exists "404"]].
  destruct ((id <? 1) || (id >? 5)); [split; [reflexivity | now exists "404"]|].
  destruct (beginErr e); [split; [reflexivity | now exists "500"]|].
  destruct (if rowErr e then (0, 0)
            else match selectCustomer id db with Some lb => lb | None => (0, 0) end)
    as [limit balance].
  destruct (queryErr e); [split; [reflexivity | now exists "500"]|].
  split; [reflexivity | now exists "200"].
Qed.

Lemma counted_Inc code method path m :
  counted (Inc code method path m) = S (counted m).
Proof.
  unfold counted, Inc. cbn [httpRequestTotal].
  set (f := fun (_ : string * string * string) (n acc : nat) => (n + acc)%nat).
  assert (Hf : forall (M : gmap (string * string * string) nat) j1 j2 z1 z2 y,
             j1 <> j2 -> M !! j1 = Some z1 -> M !! j2 = Some z2 ->
             f j1 z1 (f j2 z2 y) = f j2 z2 (f j1 z1 y))
    by (intros; unfold f; lia).
  destruct (httpRequestTotal m !! (code, method, path)) as [n|] eqn:Hn; cbn [default].
  - rewrite (map_fold_delete_L f 0%nat _ n (httpRequestTotal m) (Hf _) Hn).
    rewrite <- insert_delete_eq.
    rewrite (map_fold_insert_L f 0%nat _ (S n) _ (Hf _)) by apply lookup_delete_eq.
    reflexivity.
  - rewrite (map_fold_insert_L f 0%nat _ 1%nat _ (Hf _) Hn). reflexivity.
Qed.

Lemma counter_Inc code method path code' method' path' m :
  counter code' method' path' (Inc code method path m) =
  if decide ((code, method, path) = (code', method', path'))
  then S (counter code' method' path' m) else counter code' method' path' m.
Proof.
  unfold counter, Inc. cbn [httpRequestTotal]. rewrite lookup_insert.
  destruct (decide _) as [[= -> -> ->] | _]; reflexivity.
Qed.

Lemma recorded_counters label method path d m :
  (forall code' method' path',
     counter code' method' path' (recorded label method path d m) =
     if decide ((label, method, path) = (code', method', path'))
     then S (counter code' method' path' m) else counter code' method' path' m) /\
  httpRequestDuration (recorded label method path d m)
  = (label, method, path, d) :: httpRequestDuration m /\
  counted (recorded label method path d m) = S (counted m).
Proof.
  unfold recorded. split; [|split].
  - intros code' method' path'. apply counter_Inc.
  - reflexivity.
  - apply counted_Inc.
Qed.

(** X9: the handler of the transactions with its metrics replies and
    updates the store as [handleTransactions] does, and records the
    request once: it adds one to the counter whose labels are the decimal
    status of the reply, the method and the path of the route, leaves
    every other counter as it was, and adds one observation, under the
    same labels, of the time since the handler was built (not since the
    request arrived). *)
Theorem transactions_recorded (start : Z) (method : string) (finished : Z)
    (e : env) (r : request) (db : DB) (m : metrics) :
  let m' := snd (handleTransactionsMetrics start method finished e r db m) in
  let path := " /clientes/{id}/transacoes" in
  fst (handleTransactionsMetrics start method finished e r db m)
  = handleTransactions e r db /\
  exists label,
    strconv.Atoi label = Some (code (fst (handleTransactions e r db))) /\
    (forall code' method' path',
       counter code' method' path' m' =
       if decide ((label, method, path) = (code', method', path'))
       then S (counter code' method' path' m) else counter code' method' path' m) /\
    httpRequestDuration m' = (label, method, path, finished - start) :: httpRequestDuration m.
Proof.
  intros m' path. subst m'.
  destruct (handleTransactionsMetrics_recorded start method finished e r db m)
    as (Hfst & label & Hlabel & ->).
  split; [exact Hfst|]. exists label. split; [exact Hlabel|].
  destruct (recorded_counters label method path (finished - start) m) as (Hc & Hd & _).
  split; assumption.
Qed.

(** X10: the handler of the statement with its metrics replies as
    [handleStatement] does and records the request once, under the
    decimal status of the reply, the method and the path of the route,
    with the time since the request arrived; every other counter is as it
    was. *)
Theorem statement_recorded (method : string) (arrived finished : Z)
    (e : env) (r : request) (db : DB) (m : metrics) :
  let m' := snd (handleStatementMetrics method arrived finished e r db m) in
  let path := " /clientes/{id}/extrato" in
  fst (handleStatementMetrics method arrived finished e r db m) = handleStatement e r db /\
  exists label,
    strconv.Atoi label = Some (code (handleStatement e r db)) /\
    (forall code' method' path',
       counter code' method' path' m' =
       if decide ((label, method, path) = (code', method', path'))
       then S (counter code' method' path' m) else counter code' method' path' m) /\
    httpRequestDuration m' = (label, method, path, finished - arrived) :: httpRequestDuration m.
Proof.
  intros m' path. subst m'.
  destruct (handleStatementMetrics_recorded method arrived finished e r db m)
    as (Hfst & label & Hlabel & ->).
  split; [exact Hfst|]. exists label. split; [exact Hlabel|].
  destruct (recorded_counters label method path (finished - arrived) m) as (Hc & Hd & _).
  split; assumption.
Qed.

Lemma serve_recorded start s c :
  fst (serve start s c) = snd (exec (fst s) (plain c)) /\
  exists label method path d, snd (serve start s c) = recorded label method path d (snd s).
Proof.
  destruct c as [method finished e r | method arrived finished e r]; cbn [serve plain exec].
  - destruct (handleTransactionsMetrics_recorded start method finished e r (fst s) (snd s))
      as (Hfst & label & _ & Hsnd).
    destruct (handleTransactionsMetrics start method finished e r (fst s) (snd s))
      as [[rep db'] m'].
    cbn [fst snd] in *. split; [now rewrite <- Hfst | eauto].
  - cbn [fst snd].
    destruct (handleStatementMetrics_recorded method arrived finished e r (fst s) (snd s))
      as (_ & label & _ & ->). split; [reflexivity | eauto].
Qed.

(** X11: over any sequence of requests the metrics count every request
    once: the counters of [httpRequestTotal] grow by the number of
    requests in all, none of them ever falls, and the histogram gets one
    observation for every request; the store goes through the same states
    as without the metrics. *)
Theorem every_request_counted (start : Z) (cs : list served) (db : DB) (m : metrics) :
  let s' := serveAll start cs (db, m) in
  fst s' = run db (map plain cs) /\
  counted (snd s') = (counted m + length cs)%nat /\
  length (httpRequestDuration (snd s')) = (length (httpRequestDuration m) + length cs)%nat /\
  forall code method path, (counter code method path m <= counter code method path (snd s'))%nat.
Proof.
  unfold serveAll, run. revert db m.
  induction cs as [|c cs IH]; intros db m; cbn [fold_left map length].
  - cbn. repeat split; lia.
  - destruct (serve_recorded start (db, m) c) as (Hdb & label & method & path & d & Hm).
    cbn [fst snd] in Hdb, Hm.
    destruct (serve start (db, m) c) as [db1 m1] eqn:Hs. cbn [fst snd] in Hdb, Hm.
    subst db1 m1. specialize (IH (snd (exec db (plain c))) (recorded label method path d m)).
    cbv zeta in IH. destruct IH as (IH1 & IH2 & IH3 & IH4).
    destruct (recorded_counters label method path d m) as (Hc & Hd & Hn).
    rewrite Hd in IH3. rewrite Hn in IH2. cbn [length] in IH3.
    split; [exact IH1|]. split; [lia|]. split; [lia|].
    intros code' method' path'. specialize (IH4 code' method' path').
    rewrite Hc in IH4. destruct (decide _); lia.
Qed.

Lemma agreeing_recorded label method path d m :
  agreeing m -> agreeing (recorded label method path d m).
Proof.
  intros Hm code' method' path'.
  destruct (recorded_counters label method path d m) as (-> & Hd & _).
  unfold observed. rewrite Hd. cbn [List.filter fst].
  specialize (Hm code' method' path'). unfold observed in Hm.
  destruct (decide ((label, method, path) = (code', method', path'))) as [Heq | Hne].
  - rewrite bool_decide_eq_true_2 by exact Heq. cbn [length]. now rewrite Hm.
  - rewrite bool_decide_eq_false_2 by exact Hne. exact Hm.
Qed.

(** X12: the counter and the histogram stay in step label by label:
    if under every triple of labels the counter equals the number of
    observations, this is still so after any sequence of requests. *)
Theorem counters_match_histogram (start : Z) (cs : list served) (db : DB) (m : metrics) :
  agreeing m -> agreeing (snd (serveAll start cs (db, m))).
Proof.
  unfold serveAll. revert db m.
  induction cs as [|c cs IH]; intros db m Hm; cbn [fold_left]; [exact Hm|].
  destruct (serve_recorded start (db, m) c) as (_ & label & method & path & d & Hrec).
  destruct (serve start (db, m) c) as [db1 m1]. cbn [snd] in Hrec. subst m1.
  apply IH. now apply agreeing_recorded.
Qed.

Lemma counters_match_histogram_witness :
  agreeing (snd (serveAll 0
                   [Posted "POST" 5 up (post "1" 10 "c" "dep");
                    Fetched "GET" 6 7 up (mkRequest None "1");
                    Posted "POST" 9 up (post "6" 10 "c" "dep")]
                   (refDB, noMetrics))).
Proof.
  apply counters_match_histogram. intros code method path. reflexivity.
Defined.


